(** * hpc_demo_setup.py: the reconciliation helpers and the trace printer

    A shallow embedding of the helper functions of [hpc_demo_setup.py]
    (get-or-create, choice-set merge, custom-field provisioning, interface
    type inference, cabling, the two metrics and the trace printer), and the
    properties its specification states about them.

    Python values are an inductive type, a [dict] is an association list
    (insertion order is kept, keys are strings as in decoded JSON), remote
    calls run in a small state-and-exception monad over an abstract server
    that records every call in a log. *)

From Stdlib Require Import ZArith List String Ascii Bool Lia.
From Stdlib Require Import DecimalString Uint63 Floats.
Import ListNotations.

#[local] Open Scope string_scope.
#[local] Open Scope Z_scope.
#[local] Set Warnings "-register-all".

(** ** Python values *)

Module Py.

(** The values the script handles: decoded JSON ([None], booleans,
    integers, strings, lists, dicts), tuples (the script tests for them),
    and pynetbox [Record] objects, which carry attributes instead of keys.
    A float does not occur in the data the modelled functions inspect. *)
Inductive pyval : Type :=
| PNone
| PBool (b : bool)
| PInt (z : Z)
| PStr (s : string)
| PList (l : list pyval)
| PTuple (l : list pyval)
| PDict (kv : list (string * pyval))
| PRec (attrs : list (string * pyval)).

Definition dict := list (string * pyval).

(** The exceptions that the modelled code can meet. [RemoteError] stands
    for whatever the HTTP layer or pynetbox raises on a failed request. *)
Inductive exn : Type :=
| TypeError
| ValueError
| AttributeError
| KeyError
| IndexError
| ZeroDivisionError
| RemoteError (status : Z).

(** The result of evaluating an expression that may raise. *)
Inductive outcome (A : Type) : Type :=
| Ok (a : A)
| Raised (e : exn).
Arguments Ok {A} a.
Arguments Raised {A} e.

Definition obind {A B} (o : outcome A) (f : A -> outcome B) : outcome B :=
  match o with
  | Ok a => f a
  | Raised e => Raised e
  end.

(** [bool(v)]: a Record defines neither [__bool__] nor [__len__], so it is
    always true. *)
Definition truthy (v : pyval) : bool :=
  match v with
  | PNone => false
  | PBool b => b
  | PInt z => negb (z =? 0)
  | PStr s => negb (String.eqb s "")
  | PList l | PTuple l => match l with [] => false | _ => true end
  | PDict kv => match kv with [] => false | _ => true end
  | PRec _ => true
  end.

(** [a or b] *)
Definition py_or (a b : pyval) : pyval := if truthy a then a else b.

(** Lookup in an association list; the first binding of a key is the one
    a dict with unique keys holds. *)
Fixpoint lookup (k : string) (kv : dict) : option pyval :=
  match kv with
  | [] => None
  | (k', v) :: rest => if String.eqb k k' then Some v else lookup k rest
  end.

(** [d.get(k)] and [d.get(k, default)] on the entries of a dict. *)
Definition dict_get (kv : dict) (k : string) : pyval :=
  match lookup k kv with Some v => v | None => PNone end.

Definition dict_get_default (kv : dict) (k : string) (d : pyval) : pyval :=
  match lookup k kv with Some v => v | None => d end.

(** [isinstance(v, dict)] and [isinstance(v, list)] *)
Definition is_dict (v : pyval) : bool :=
  match v with PDict _ => true | _ => false end.
Definition is_list (v : pyval) : bool :=
  match v with PList _ => true | _ => false end.

(** [v.get(k)] where [v] is not known to be a dict: any other value has no
    [get] attribute. A Record has none either (its attributes are the
    fields the server sent). *)
Definition method_get (v : pyval) (k : string) : outcome pyval :=
  match v with
  | PDict kv => Ok (dict_get kv k)
  | _ => Raised AttributeError
  end.

(** [getattr(v, k, default)]: the attributes of a Record are its fields,
    those of a dict or of any other value are not the keys it holds. *)
Definition getattr_default (v : pyval) (k : string) (d : pyval) : pyval :=
  match v with
  | PRec attrs => dict_get_default attrs k d
  | _ => d
  end.

(** [v.k] *)
Definition getattr (v : pyval) (k : string) : outcome pyval :=
  match v with
  | PRec attrs =>
      match lookup k attrs with Some x => Ok x | None => Raised AttributeError end
  | _ => Raised AttributeError
  end.

(** [v[k]] for a string key. *)
Definition getitem (v : pyval) (k : string) : outcome pyval :=
  match v with
  | PDict kv =>
      match lookup k kv with Some x => Ok x | None => Raised KeyError end
  | PRec attrs =>
      match lookup k attrs with Some x => Ok x | None => Raised KeyError end
  | _ => Raised TypeError
  end.

(** Hashable values: what a [set] accepts. Lists and dicts are not; a
    tuple is when its items are. A Record hashes on its identity fields. *)
Fixpoint hashable (v : pyval) : bool :=
  match v with
  | PNone | PBool _ | PInt _ | PStr _ => true
  | PTuple l => forallb hashable l
  | PList _ | PDict _ => false
  | PRec _ => true
  end.

Definition int_of_bool (b : bool) : Z := if b then 1 else 0.

(** [a == b]. Booleans are integers ([True == 1]); sequences compare item
    by item, a list never equals a tuple; dicts compare as mappings. *)
Fixpoint py_eq (a b : pyval) {struct a} : bool :=
  let fix eq_items (l1 l2 : list pyval) {struct l1} : bool :=
    match l1, l2 with
    | [], [] => true
    | x :: r1, y :: r2 => py_eq x y && eq_items r1 r2
    | _, _ => false
    end in
  let fix sub_dict (d1 : dict) (d2 : dict) {struct d1} : bool :=
    match d1 with
    | [] => true
    | (k, v) :: r =>
        match lookup k d2 with
        | Some w => py_eq v w && sub_dict r d2
        | None => false
        end
    end in
  match a, b with
  | PNone, PNone => true
  | PBool x, PBool y => Bool.eqb x y
  | PBool x, PInt y => int_of_bool x =? y
  | PInt x, PBool y => x =? int_of_bool y
  | PInt x, PInt y => x =? y
  | PStr x, PStr y => String.eqb x y
  | PList x, PList y => eq_items x y
  | PTuple x, PTuple y => eq_items x y
  | PDict x, PDict y => (List.length x =? List.length y)%nat && sub_dict x y
  | PRec x, PRec y => (List.length x =? List.length y)%nat && sub_dict x y
  | _, _ => false
  end.

(** [v in s] for a set or list [s] held as a list. *)
Definition py_in (v : pyval) (s : list pyval) : bool :=
  existsb (py_eq v) s.

(** [str(z)] *)
Definition str_of_Z (z : Z) : string := NilZero.string_of_int (Z.to_int z).

End Py.
Import Py.

(** ** Strings *)

Module Str.

(** [needle in hay] on strings: [needle] occurs at some position. *)
Fixpoint str_in (needle hay : string) : bool :=
  if String.prefix needle hay then true
  else match hay with
       | EmptyString => false
       | String _ rest => str_in needle rest
       end.

(** [c.lower()] on one ASCII character; other bytes are left alone. *)
Definition lower_char (c : ascii) : ascii :=
  let n := nat_of_ascii c in
  if ((65 <=? n) && (n <=? 90))%nat then ascii_of_nat (n + 32) else c.

(** [s.lower()], on the ASCII letters of [s]. *)
Fixpoint lower (s : string) : string :=
  match s with
  | EmptyString => EmptyString
  | String c rest => String (lower_char c) (lower rest)
  end.

(** A byte that continues a UTF-8 sequence, [10xxxxxx]. *)
Definition is_continuation (c : ascii) : bool :=
  let n := nat_of_ascii c in ((128 <=? n) && (n <? 192))%nat.

(** The characters (code points) of a string held as UTF-8 bytes, each as
    a one-character string: what iterating over a [str] yields. *)
Fixpoint chars (s : string) : list string :=
  match s with
  | EmptyString => []
  | String c rest =>
      match chars rest with
      | [] => [String c EmptyString]
      | ch :: more =>
          match rest with
          | String c' _ =>
              if is_continuation c' then String c ch :: more
              else String c EmptyString :: ch :: more
          | EmptyString => [String c EmptyString]
          end
      end
  end.

End Str.
Import Str.

(** ** Builtins that are taken as given

    [repr] of a container (how a list or dict prints) and [int] of a
    string are Python's own; the script only passes values through them,
    so they are parameters of the embedding. *)

Record builtins : Type := {
  py_repr : pyval -> string;
  int_of_str : string -> outcome Z
}.

Section Pure.

Context (B : builtins).

(** [str(v)], which is also what an f-string field renders. *)
Definition py_str (v : pyval) : string :=
  match v with
  | PNone => "None"
  | PBool true => "True"
  | PBool false => "False"
  | PInt z => str_of_Z z
  | PStr s => s
  | _ => py_repr B v
  end.

(** [int(v)] *)
Definition py_int (v : pyval) : outcome Z :=
  match v with
  | PInt z => Ok z
  | PBool b => Ok (int_of_bool b)
  | PStr s => int_of_str B s
  | _ => Raised TypeError
  end.

(** [len(v)] *)
Definition py_len (v : pyval) : outcome nat :=
  match v with
  | PList l | PTuple l => Ok (List.length l)
  | PDict kv => Ok (List.length kv)
  | PStr s => Ok (List.length (chars s))
  | _ => Raised TypeError
  end.

(** What [for x in v] visits: the items of a sequence, the characters of a
    string, the keys of a dict, the (name, value) pairs of a Record. *)
Definition py_iter (v : pyval) : outcome (list pyval) :=
  match v with
  | PList l | PTuple l => Ok l
  | PStr s => Ok (map PStr (chars s))
  | PDict kv => Ok (map (fun p => PStr (fst p)) kv)
  | PRec attrs => Ok (map (fun p => PTuple [PStr (fst p); snd p]) attrs)
  | _ => Raised TypeError
  end.

(** *** Interface type inference (lines 242-253) *)

(** The substring rules, on the lowercased hint. *)
Definition iface_type_rules (s : string) : string :=
  if str_in "100g" s then "100gbase-x-qsfp28"
  else if str_in "25g" s then "25gbase-x-sfp28"
  else if str_in "40g" s then "40gbase-x-qsfpp"
  else if str_in "10g" s then "10gbase-x-sfpp"
  else if str_in "1g" s || str_in "1000" s then "1000base-t"
  else if str_in "lag" s || str_in "bond" s || str_in "port-channel" s then "lag"
  else "other".

Definition _normalize_iface_type (hint : string) : string :=
  if negb (truthy (PStr hint)) then "other"
  else iface_type_rules (lower hint).

(** *** Rack power roll-up (lines 340-345) *)

(** One round of the loop: [cf = getattr(d, "custom_fields", {}) or {}]
    and [int(cf.get("estimated_watts") or 0)]. *)
Definition device_watts (d : pyval) : outcome Z :=
  let cf := py_or (getattr_default d "custom_fields" (PDict [])) (PDict []) in
  obind (method_get cf "estimated_watts") (fun w =>
  py_int (py_or w (PInt 0))).

Fixpoint rack_watts_from (acc : Z) (devices : list pyval) : outcome Z :=
  match devices with
  | [] => Ok acc
  | d :: rest =>
      obind (device_watts d) (fun w => rack_watts_from (acc + w) rest)
  end.

Definition rack_watts (devices_in_rack : list pyval) : outcome Z :=
  rack_watts_from 0 devices_in_rack.

End Pure.

(** ** The trace printer (lines 358-413) *)

(** What the printer sends to standard output: a line of text, or the
    pretty-printed dump of a value ([pprint.pp(tr)], whose layout is
    pprint's business). *)
Inductive out : Type :=
| OutLine (s : string)
| OutDump (v : pyval).

Section Trace.

Context (B : builtins).

(** [a or <rest>], where evaluating the rest may raise. *)
Definition or_else (a : pyval) (rest : outcome pyval) : outcome pyval :=
  if truthy a then Ok a else rest.

Definition _term_to_str (term : pyval) : outcome string :=
  if negb (truthy term) then Ok "-"
  else match term with
  | PDict t =>
      let dev := py_or (dict_get t "device") (PDict []) in
      obind (obind (method_get dev "name") (fun n =>
             or_else n (obind (method_get dev "display") (fun d =>
             or_else d (Ok (PStr "")))))) (fun devname =>
      let objtype :=
        py_or (py_or (py_or (dict_get t "obj_type") (dict_get t "type"))
                     (dict_get t "object_type")) (PStr "term") in
      let name := py_or (py_or (dict_get t "name") (dict_get t "display")) (PStr "") in
      if truthy devname
      then Ok (py_str B objtype ++ ":" ++ py_str B name ++ "@" ++ py_str B devname)
      else Ok (py_str B objtype ++ ":" ++ py_str B name))
  | _ => Ok (py_str B term)
  end.

(** The line of a hop, ["   {left}  --[{label}]-->  {right}"]. *)
Definition hop_text (lft : string) (label : pyval) (rgt : string) : string :=
  "   " ++ lft ++ "  --[" ++ py_str B label ++ "]-->  " ++ rgt.

Definition item_text (s : string) : string := "   " ++ s.

(** Case A, one round of the loop over [tr] (lines 380-385). *)
Definition hop_line (hop : pyval) : outcome string :=
  obind (py_len hop) (fun n =>
  if (n =? 3)%nat then
    obind (py_iter hop) (fun items =>
    match items with
    | [lft; cable; rgt] =>
        obind (if is_dict cable
               then method_get (py_or cable (PDict [])) "label"
               else Ok (PStr "cable")) (fun label =>
        obind (_term_to_str lft) (fun l =>
        obind (_term_to_str rgt) (fun r =>
        Ok (hop_text l label r))))
    | _ => Raised ValueError
    end)
  else obind (_term_to_str hop) (fun s => Ok (item_text s))).

(** Case B, one round of the loop over [tr] (lines 391-398). *)
Definition seg_line (seg : pyval) : outcome string :=
  obind (method_get seg "termination_a") (fun ta =>
  obind (or_else ta (obind (method_get seg "a") (fun a =>
         or_else a (method_get seg "from")))) (fun lft =>
  obind (method_get seg "termination_b") (fun tb =>
  obind (or_else tb (obind (method_get seg "b") (fun b =>
         or_else b (method_get seg "to")))) (fun rgt =>
  obind (method_get seg "cable") (fun c =>
  let cable := py_or c (PDict []) in
  obind (method_get cable "label") (fun lb =>
  obind (or_else lb (obind (method_get cable "display") (fun dp =>
         or_else dp (Ok (PStr "cable"))))) (fun label =>
  if truthy (py_or lft rgt)
  then obind (_term_to_str lft) (fun l =>
       obind (_term_to_str rgt) (fun r =>
       Ok (hop_text l label r)))
  else obind (_term_to_str seg) (fun s => Ok (item_text s))))))))).

(** Case C, one round (line 404). *)
Definition flat_line (item : pyval) : outcome string :=
  obind (_term_to_str item) (fun s => Ok (item_text s)).

(** A [for] loop that prints one line per item and stops at the first
    exception, the lines printed so far staying printed. *)
Fixpoint print_each (line : pyval -> outcome string) (items : list pyval)
  : list out * outcome unit :=
  match items with
  | [] => ([], Ok tt)
  | x :: rest =>
      match line x with
      | Raised e => ([], Raised e)
      | Ok s => let (o, r) := print_each line rest in (OutLine s :: o, r)
      end
  end.

(** The compass sign that opens the title, as its UTF-8 bytes. *)
Definition compass : string :=
  String (ascii_of_nat 240) (String (ascii_of_nat 159)
  (String (ascii_of_nat 167) (String (ascii_of_nat 173) EmptyString))).

Definition title_line (title : string) : out := OutLine (compass ++ " " ++ title).

(** [print_interface_trace_raw] from line 376 on, that is once the
    response has been received and decoded into [tr]. The result is what
    was printed and whether the function returned or raised. *)
Definition print_interface_trace_raw (tr : pyval) (title : string)
  : list out * outcome unit :=
  let after_title (p : list out * outcome unit) :=
    (title_line title :: fst p, snd p) in
  match tr with
  | PList (PList h :: rest) =>
      after_title (print_each hop_line (PList h :: rest))
  | PList (PDict s :: rest) =>
      after_title (print_each seg_line (PDict s :: rest))
  | PList items =>
      after_title (print_each flat_line items)
  | _ =>
      ([title_line title; OutLine "   [raw trace]"; OutDump tr], Ok tt)
  end.

End Trace.

(** ** Terminations and the port-utilization figure (lines 297-301, 348-352) *)

(** An interface, power port or power outlet as the script holds it: a
    pynetbox Record, of which the script reads [id] and [cable]. Reading
    an attribute of a Record can trigger a request, so the read of
    [cable] has an outcome of its own: a value, no such attribute
    ([Ok None]), or an exception. *)
Record termination : Type := {
  term_id : pyval;
  term_cable : outcome (option pyval)
}.

(** [getattr(t, "cable", None)]: the default replaces a missing attribute
    (an [AttributeError]), any other exception goes through. *)
Definition getattr_cable (t : termination) : outcome pyval :=
  match term_cable t with
  | Ok (Some v) => Ok v
  | Ok None => Ok PNone
  | Raised AttributeError => Ok PNone
  | Raised e => Raised e
  end.

(** [try: return bool(getattr(t, "cable", None)) except Exception: return False] *)
Definition _has_cable (t : termination) : bool :=
  match getattr_cable t with
  | Ok v => truthy v
  | Raised _ => false
  end.

Module Float.

#[local] Open Scope float_scope.

(** An integer as a float; exact below 2^53. *)
Definition of_Z (z : Z) : float :=
  if (z <? 0)%Z then - PrimFloat.of_uint63 (Uint63.of_Z (- z))
  else PrimFloat.of_uint63 (Uint63.of_Z z).

(** [a / b] on integers: the correctly rounded quotient, which for
    operands below 2^53 is the IEEE division of the two floats. *)
Definition py_truediv (a b : Z) : outcome float :=
  if (b =? 0)%Z then Raised ZeroDivisionError else Ok (of_Z a / of_Z b).

(** [num / den] rounded to the nearest integer, ties to the even one. *)
Definition round_half_even (num den : Z) : Z :=
  let q := (num / den)%Z in
  let r := (num mod den)%Z in
  if (2 * r <? den)%Z then q
  else if (den <? 2 * r)%Z then (q + 1)%Z
  else if Z.even q then q else (q + 1)%Z.

(** [round(x, 1)]: the exact binary value of [x] is rounded to one
    decimal, ties to even, and the float nearest to that decimal is
    returned; zeros, infinities, NaN and integral values come back as
    they are. *)
Definition py_round1 (x : float) : float :=
  match Prim2SF x with
  | S754_finite s m e =>
      if (0 <=? e)%Z then x
      else
        let tenths := round_half_even (10 * Zpos m) (2 ^ (- e)) in
        let r := of_Z tenths / of_Z 10 in
        if s then - r else r
  | _ => x
  end.

End Float.

(** [[i for i in ifaces if getattr(i, "cable", None)]] *)
Fixpoint cabled (ifaces : list termination) : outcome (list termination) :=
  match ifaces with
  | [] => Ok []
  | i :: rest =>
      obind (getattr_cable i) (fun c =>
      obind (cabled rest) (fun more =>
      Ok (if truthy c then i :: more else more)))
  end.

(** Lines 349-351, for the interfaces the filter returned. *)
Definition util (all_tor_ifaces : list termination) : outcome float :=
  let total_ports := Z.of_nat (List.length all_tor_ifaces) in
  obind (cabled all_tor_ifaces) (fun used =>
  let used_ports := Z.of_nat (List.length used) in
  if truthy (PInt total_ports)
  then obind (Float.py_truediv (100 * used_ports) total_ports) (fun q =>
       Ok (Float.py_round1 q))
  else Ok 0%float).

(** ** The remote service and the monad of remote calls *)

(** The calls the script makes: through a pynetbox endpoint ([get],
    [create], [update]) or, on the fallback path of [ensure_choice_set],
    through a raw HTTP session. A raw call names the collection and, for
    [PATCH], the identity that the script formats into the URL; its body
    is the value that the script serialises with [json.dumps]. *)
Inductive call : Type :=
| NbGet (endpoint : string) (filters : dict)
| NbCreate (endpoint : string) (data : pyval)
| NbUpdate (endpoint : string) (objects : pyval)
| HttpGet (collection : string) (params : dict)
| HttpPatch (collection : string) (id : pyval) (body : pyval)
| HttpPost (collection : string) (body : pyval).

(** The service behind the client. Lookups do not change it. A pynetbox
    [get] answers a Record or [None], [create] a Record, [update] a list of
    Records. A raw call stands for the request, [raise_for_status()] and
    [json()] together: the decoded body, or the exception raised.
    [has_choice_sets] is [_pynetbox_has_choice_sets()] (lines 88-89). *)
Record netbox : Type := {
  state : Type;
  has_choice_sets : bool;
  nb_get : string -> dict -> state -> outcome (option dict);
  nb_create : string -> pyval -> state -> outcome dict * state;
  nb_update : string -> pyval -> state -> outcome (list dict) * state;
  http_get : string -> dict -> state -> outcome pyval;
  http_patch : string -> pyval -> pyval -> state -> outcome pyval * state;
  http_post : string -> pyval -> state -> outcome pyval * state
}.

(** The service together with the log of the calls made so far. *)
Record world (N : netbox) : Type := {
  remote : state N;
  calls : list call
}.
Arguments remote {N} w.
Arguments calls {N} w.

Definition M (N : netbox) (A : Type) : Type := world N -> outcome A * world N.

Definition ret {N A} (a : A) : M N A := fun w => (Ok a, w).

Definition bind {N A B} (c : M N A) (k : A -> M N B) : M N B :=
  fun w =>
    match c w with
    | (Ok a, w') => k a w'
    | (Raised e, w') => (Raised e, w')
    end.

(** A pure expression that may raise. *)
Definition lift {N A} (o : outcome A) : M N A := fun w => (o, w).

Notation "x <- c ;; k" := (bind c (fun x => k))
  (at level 61, c at next level, right associativity).

Definition logged {N} (w : world N) (c : call) (s : state N) : world N :=
  {| remote := s; calls := calls w ++ [c] |}.

Section Calls.

Context {N : netbox}.

Definition get (endpoint : string) (filters : dict) : M N (option dict) :=
  fun w => (nb_get N endpoint filters (remote w),
            logged w (NbGet endpoint filters) (remote w)).

Definition create (endpoint : string) (data : pyval) : M N pyval :=
  fun w =>
    let (r, s) := nb_create N endpoint data (remote w) in
    (obind r (fun o => Ok (PRec o)), logged w (NbCreate endpoint data) s).

Definition update (endpoint : string) (objects : pyval) : M N (list pyval) :=
  fun w =>
    let (r, s) := nb_update N endpoint objects (remote w) in
    (obind r (fun l => Ok (map PRec l)), logged w (NbUpdate endpoint objects) s).

Definition session_get (collection : string) (params : dict) : M N pyval :=
  fun w => (http_get N collection params (remote w),
            logged w (HttpGet collection params) (remote w)).

Definition session_patch (collection : string) (id body : pyval) : M N pyval :=
  fun w =>
    let (r, s) := http_patch N collection id body (remote w) in
    (r, logged w (HttpPatch collection id body) s).

Definition session_post (collection : string) (body : pyval) : M N pyval :=
  fun w =>
    let (r, s) := http_post N collection body (remote w) in
    (r, logged w (HttpPost collection body) s).

(** [l[0]] *)
Definition first_item {A} (l : list A) : outcome A :=
  match l with
  | x :: _ => Ok x
  | [] => Raised IndexError
  end.

(** [v[0]] on a value of any kind. *)
Definition index0 (v : pyval) : outcome pyval :=
  match v with
  | PList l | PTuple l => first_item l
  | PStr s => obind (first_item (chars s)) (fun c => Ok (PStr c))
  | PDict _ | PRec _ => Raised KeyError
  | _ => Raised TypeError
  end.

(** *** get_or_create (lines 37-47) *)

(** The loop of lines 39-43: the first of the given keys that [attrs]
    holds with a true value. *)
Fixpoint first_key (ks : list string) (attrs : dict) : option (string * pyval) :=
  match ks with
  | [] => None
  | k :: more =>
      match lookup k attrs with
      | Some v => if truthy v then Some (k, v) else first_key more attrs
      | None => first_key more attrs
      end
  end.

(** [key or {}], the filter of the lookup. *)
Definition lookup_key (attrs : dict) : dict :=
  match first_key ["name"; "slug"] attrs with
  | Some kv => [kv]
  | None => []
  end.

Definition get_or_create (endpoint : string) (attrs : dict) : M N pyval :=
  obj <- get endpoint (lookup_key attrs) ;;
  match obj with
  | Some o => ret (PRec o)
  | None => create endpoint (PDict attrs)
  end.

(** *** Choice sets (lines 78-153) *)

(** [vals.add(v)]; the set is held as the list of its members. *)
Definition set_add (vals : list pyval) (v : pyval) : outcome (list pyval) :=
  if hashable v then Ok (if py_in v vals then vals else (vals ++ [v])%list)
  else Raised TypeError.

(** The loop of [_vals_from_choices] (lines 81-85). *)
Fixpoint vals_from_items (vals : list pyval) (items : list pyval)
  : outcome (list pyval) :=
  match items with
  | [] => Ok vals
  | c :: rest =>
      match c with
      | PList (x :: _) | PTuple (x :: _) =>
          obind (set_add vals x) (fun vals' => vals_from_items vals' rest)
      | PDict d =>
          obind (set_add vals (dict_get d "value")) (fun vals' =>
          vals_from_items vals' rest)
      | _ => vals_from_items vals rest
      end
  end.

Definition _vals_from_choices (choices : pyval) : outcome (list pyval) :=
  obind (py_iter (py_or choices (PList []))) (fun items =>
  vals_from_items [] items).

(** [[v for v in values if v not in existing_vals]]: membership in a set
    hashes [v] first. *)
Fixpoint missing_values (values existing_vals : list pyval)
  : outcome (list pyval) :=
  match values with
  | [] => Ok []
  | v :: rest =>
      if hashable v
      then obind (missing_values rest existing_vals) (fun m =>
           Ok (if py_in v existing_vals then m else v :: m))
      else Raised TypeError
  end.

(** [[[v, v] for v in values]] *)
Definition pairs_of (values : list pyval) : list pyval :=
  map (fun v => PList [v; v]) values.

(** The normalisation loop of the structured path (lines 109-113). *)
Fixpoint norm_extra_nb (current_extra : list pyval) : list pyval :=
  match current_extra with
  | [] => []
  | c :: rest =>
      match c with
      | PList l | PTuple l => PList l :: norm_extra_nb rest
      | PDict d =>
          PList [dict_get d "value";
                 dict_get_default d "label" (dict_get d "value")]
          :: norm_extra_nb rest
      | _ => norm_extra_nb rest
      end
  end.

(** The normalisation loop of the raw path (lines 141-145). *)
Fixpoint norm_extra_http (current_extra : list pyval) : list pyval :=
  match current_extra with
  | [] => []
  | c :: rest =>
      match c with
      | PList l => PList l :: norm_extra_http rest
      | PDict d =>
          PList [dict_get d "value";
                 dict_get_default d "label" (dict_get d "value")]
          :: norm_extra_http rest
      | _ => norm_extra_http rest
      end
  end.

(** Lines 102-114 and the expression of line 118, on the Record [cs]:
    [None] when nothing is missing, else the new extra partition. *)
Definition merge_nb (cs : pyval) (values : list pyval)
  : outcome (option (list pyval)) :=
  obind (_vals_from_choices (getattr_default cs "choices" (PList []))) (fun existing_vals =>
  obind (missing_values values existing_vals) (fun missing =>
  if negb (truthy (PList missing)) then Ok None
  else
    let current_extra :=
      py_or (getattr_default cs "extra_choices" (PList [])) (PList []) in
    obind (py_iter current_extra) (fun items =>
    Ok (Some (norm_extra_nb items ++ pairs_of missing)%list)))).

(** [v.get(k, default)] where [v] is not known to be a dict. *)
Definition method_get_default (v : pyval) (k : string) (d : pyval) : outcome pyval :=
  match v with
  | PDict kv => Ok (dict_get_default kv k d)
  | _ => Raised AttributeError
  end.

(** Lines 135-146, on the decoded record [cs]. *)
Definition merge_http (cs : pyval) (values : list pyval)
  : outcome (option (list pyval)) :=
  obind (method_get_default cs "choices" (PList [])) (fun choices =>
  obind (_vals_from_choices choices) (fun existing_vals =>
  obind (missing_values values existing_vals) (fun missing =>
  if negb (truthy (PList missing)) then Ok None
  else
    obind (method_get cs "extra_choices") (fun ec =>
    let current_extra := py_or ec (PList []) in
    obind (py_iter current_extra) (fun items =>
    Ok (Some (norm_extra_http items ++ pairs_of missing)%list)))))).

Definition CHOICE_SETS : string := "extras/custom-field-choice-sets".

(** The structured path (lines 99-123). *)
Definition ensure_choice_set_nb (name : string) (values : list pyval) : M N pyval :=
  cs <- get CHOICE_SETS [("name", PStr name)] ;;
  match cs with
  | Some rec =>
      let cs := PRec rec in
      plan <- lift (merge_nb cs values) ;;
      match plan with
      | None => ret cs
      | Some extra =>
          id <- lift (getattr cs "id") ;;
          updated <- update CHOICE_SETS
            (PList [PDict [("id", id); ("extra_choices", PList extra)]]) ;;
          lift (first_item updated)
      end
  | None =>
      create CHOICE_SETS
        (PDict [("name", PStr name); ("extra_choices", PList (pairs_of values))])
  end.

(** [x > 0] *)
Definition py_gt0 (x : pyval) : outcome bool :=
  match x with
  | PInt z => Ok (0 <? z)
  | PBool b => Ok b
  | _ => Raised TypeError
  end.

(** The raw-HTTP fallback (lines 126-153). *)
Definition ensure_choice_set_http (name : string) (values : list pyval) : M N pyval :=
  data <- session_get CHOICE_SETS [("name", PStr name); ("limit", PInt 0)] ;;
  count <- lift (method_get_default data "count" (PInt 0)) ;;
  found <- lift (py_gt0 count) ;;
  if found : bool then
    results <- lift (getitem data "results") ;;
    cs <- lift (index0 results) ;;
    plan <- lift (merge_http cs values) ;;
    match plan with
    | None => ret cs
    | Some extra =>
        id <- lift (getitem cs "id") ;;
        session_patch CHOICE_SETS id (PDict [("extra_choices", PList extra)])
    end
  else
    session_post CHOICE_SETS
      (PDict [("name", PStr name); ("extra_choices", PList (pairs_of values))]).

Definition ensure_choice_set (name : string) (values : list pyval) : M N pyval :=
  if has_choice_sets N then ensure_choice_set_nb name values
  else ensure_choice_set_http name values.

(** *** Select custom fields (lines 156, 168-186) *)

Definition CUSTOM_FIELDS : string := "extras/custom-fields".

Definition CF_DEVICE_OBJECT_TYPES : pyval := PList [PStr "dcim.device"].

(** The [payload] of lines 175-178. *)
Definition cf_select_payload (name label : string) (cs_id : pyval) : dict :=
  [("name", PStr name); ("type", PStr "select"); ("label", PStr label);
   ("required", PBool false); ("object_types", CF_DEVICE_OBJECT_TYPES);
   ("choice_set", cs_id); ("selection_mode", PStr "single")].

(** [cs["id"] if isinstance(cs, dict) else cs.id] (line 172) *)
Definition choice_set_id (cs : pyval) : outcome pyval :=
  if is_dict cs then getitem cs "id" else getattr cs "id".

(** Lines 182-183: the identity of the choice set a field is bound to. *)
Definition current_choice_set_id (cf : pyval) : outcome pyval :=
  let current_cs := getattr_default cf "choice_set" PNone in
  if is_dict current_cs then method_get current_cs "id"
  else Ok (getattr_default current_cs "id" PNone).

Definition ensure_cf_select (name label : string) (values : list pyval)
  (choice_set_name : option string) : M N pyval :=
  let choice_set_name :=
    match choice_set_name with
    | Some n => if truthy (PStr n) then n else name
    | None => name
    end in
  cs <- ensure_choice_set choice_set_name values ;;
  cs_id <- lift (choice_set_id cs) ;;
  cf <- get CUSTOM_FIELDS [("name", PStr name)] ;;
  let payload := cf_select_payload name label cs_id in
  match cf with
  | None => create CUSTOM_FIELDS (PDict payload)
  | Some rec =>
      let cf := PRec rec in
      current_cs_id <- lift (current_choice_set_id cf) ;;
      if negb (py_eq current_cs_id cs_id) then
        id <- lift (getattr cf "id") ;;
        updated <- update CUSTOM_FIELDS (PList [PDict (("id", id) :: payload)]) ;;
        lift (first_item updated)
      else ret cf
  end.

(** *** Cabling (lines 303-317) *)

Definition CABLES : string := "dcim/cables".

Definition cable_payload (a_type : string) (a : termination)
  (b_type : string) (b : termination) : pyval :=
  PDict [("a_terminations",
          PList [PDict [("object_type", PStr a_type); ("object_id", term_id a)]]);
         ("b_terminations",
          PList [PDict [("object_type", PStr b_type); ("object_id", term_id b)]])].

Definition cable_ifaces (a_iface b_iface : termination) : M N unit :=
  if _has_cable a_iface || _has_cable b_iface then ret tt
  else
    _ <- create CABLES
           (cable_payload "dcim.interface" a_iface "dcim.interface" b_iface) ;;
    ret tt.

Definition cable_power (power_port power_outlet : termination) : M N unit :=
  if _has_cable power_port || _has_cable power_outlet then ret tt
  else
    _ <- create CABLES
           (cable_payload "dcim.powerport" power_port "dcim.poweroutlet" power_outlet) ;;
    ret tt.

End Calls.

(** The number of [create] calls in a log, through either transport. *)
Definition is_create (c : call) : bool :=
  match c with
  | NbCreate _ _ | HttpPost _ _ => true
  | _ => false
  end.

Definition is_update (c : call) : bool :=
  match c with
  | NbUpdate _ _ | HttpPatch _ _ _ => true
  | _ => false
  end.

Definition creates (log : list call) : nat := List.length (filter is_create log).
Definition updates (log : list call) : nat := List.length (filter is_update log).

(** ** An in-memory service

    A small NetBox: every collection is a list of stored objects, each a
    dict with an ["id"]. A lookup answers the first object whose fields
    agree with every filter, [create] stores the data under a fresh id,
    [update] overwrites the given fields of the objects named by id. It
    serves the concrete runs below. *)
Module Mem.

Definition store := list (string * list dict).

Definition objects_of (endpoint : string) (s : store) : list dict :=
  match find (fun p => String.eqb (fst p) endpoint) s with
  | Some p => snd p
  | None => []
  end.

Fixpoint set_objects (endpoint : string) (objs : list dict) (s : store) : store :=
  match s with
  | [] => [(endpoint, objs)]
  | (e, o) :: rest =>
      if String.eqb e endpoint then (e, objs) :: rest
      else (e, o) :: set_objects endpoint objs rest
  end.

Definition matches (filters : dict) (o : dict) : bool :=
  forallb (fun f => match lookup (fst f) o with
                    | Some v => py_eq v (snd f)
                    | None => false
                    end) filters.

Definition all_objects (s : store) : list dict := flat_map snd s.

Definition id_of (o : dict) : Z :=
  match lookup "id" o with Some (PInt z) => z | _ => 0 end.

Definition fresh_id (s : store) : Z :=
  1 + fold_right Z.max 0 (map id_of (all_objects s)).

Definition entries_of (v : pyval) : dict :=
  match v with PDict kv | PRec kv => kv | _ => [] end.

(** The fields of [o] overwritten by those of [patch]. *)
Definition overwrite (o patch : dict) : dict :=
  (map (fun p => (fst p, dict_get_default patch (fst p) (snd p))) o
   ++ filter (fun p => match lookup (fst p) o with Some _ => false | None => true end) patch)%list.

Definition patch_one (patch : dict) (objs : list dict) : list dict :=
  map (fun o => if py_eq (dict_get o "id") (dict_get patch "id")
                then overwrite o patch else o) objs.

Definition lookup_first (endpoint : string) (filters : dict) (s : store)
  : outcome (option dict) :=
  Ok (find (matches filters) (objects_of endpoint s)).

Definition store_new (endpoint : string) (data : pyval) (s : store)
  : outcome dict * store :=
  let o := ("id", PInt (fresh_id s)) :: entries_of data in
  (Ok o, set_objects endpoint (objects_of endpoint s ++ [o]) s).

Definition store_patch (endpoint : string) (objects : pyval) (s : store)
  : outcome (list dict) * store :=
  match objects with
  | PList [PDict patch] =>
      let objs := patch_one patch (objects_of endpoint s) in
      (Ok (filter (fun o => py_eq (dict_get o "id") (dict_get patch "id")) objs),
       set_objects endpoint objs s)
  | _ => (Raised (RemoteError 400), s)
  end.

Definition raw_get (endpoint : string) (params : dict) (s : store)
  : outcome pyval :=
  let found := filter (matches (filter (fun p => negb (String.eqb (fst p) "limit")) params))
                      (objects_of endpoint s) in
  Ok (PDict [("count", PInt (Z.of_nat (List.length found)));
             ("results", PList (map PDict found))]).

Definition raw_patch (endpoint : string) (id body : pyval) (s : store)
  : outcome pyval * store :=
  let patch := ("id", id) :: entries_of body in
  let objs := patch_one patch (objects_of endpoint s) in
  (obind (first_item (filter (fun o => py_eq (dict_get o "id") id) objs))
         (fun o => Ok (PDict o)),
   set_objects endpoint objs s).

Definition raw_post (endpoint : string) (body : pyval) (s : store)
  : outcome pyval * store :=
  let (r, s') := store_new endpoint body s in
  (obind r (fun o => Ok (PDict o)), s').

Definition service (structured : bool) : netbox :=
  {| state := store;
     has_choice_sets := structured;
     nb_get := lookup_first;
     nb_create := store_new;
     nb_update := store_patch;
     http_get := raw_get;
     http_patch := raw_patch;
     http_post := raw_post |}.

Definition start (structured : bool) (s : store) : world (service structured) :=
  {| remote := s : state (service structured); calls := [] |}.

End Mem.

(** * Properties *)

(** ** Substring search *)

(** [needle] occurs in [hay]: [hay] is some text, [needle], some text. *)
Definition occurs (needle hay : string) : Prop :=
  exists pre post, hay = pre ++ needle ++ post.

Lemma prefix_split (p s : string) :
  String.prefix p s = true <-> exists post, s = p ++ post.
Proof.
  revert s; induction p as [|a p IH]; intros s; simpl.
  - destruct s; simpl; split; eauto.
  - destruct s as [|b s]; simpl.
    + split; [discriminate | intros [post H]; discriminate].
    + destruct (ascii_dec a b) as [->|Hab].
      * rewrite IH. split; intros [post H]; exists post.
        -- now rewrite H.
        -- now injection H.
      * split; [discriminate | intros [post H]; injection H; intros; congruence].
Qed.

Lemma str_in_occurs (needle hay : string) :
  str_in needle hay = true <-> occurs needle hay.
Proof.
  induction hay as [|c hay IH]; cbn [str_in].
  - destruct (String.prefix needle "") eqn:Hp.
    + split; [intros _ | reflexivity].
      apply prefix_split in Hp as [post Hp]. now exists "", post.
    + split; [discriminate|]. intros (pre & post & H).
      destruct pre; cbn in H; [|discriminate].
      assert (String.prefix needle "" = true) by (apply prefix_split; eauto).
      congruence.
  - destruct (String.prefix needle (String c hay)) eqn:Hp.
    + split; [intros _ | reflexivity].
      apply prefix_split in Hp as [post Hp]. now exists "", post.
    + rewrite IH. split.
      * intros (pre & post & H). exists (String c pre), post. now rewrite H.
      * intros (pre & post & H). destruct pre as [|c' pre]; cbn in H.
        -- assert (String.prefix needle (String c hay) = true)
             by (apply prefix_split; eauto).
           congruence.
        -- injection H as _ H. now exists pre, post.
Qed.

Lemma str_in_absent (needle hay : string) :
  str_in needle hay = false <-> ~ occurs needle hay.
Proof.
  rewrite <- str_in_occurs. destruct (str_in needle hay); split; congruence.
Qed.

(** ** Interface type inference *)

(** The rule table in the words of the specification: each rule is the
    substrings that trigger it and the type it yields, in order. *)
Definition IFACE_RULES : list (list string * string) :=
  [ (["100g"], "100gbase-x-qsfp28");
    (["25g"], "25gbase-x-sfp28");
    (["40g"], "40gbase-x-qsfpp");
    (["10g"], "10gbase-x-sfpp");
    (["1g"; "1000"], "1000base-t");
    (["lag"; "bond"; "port-channel"], "lag") ].

(** First matching rule wins, else [other]. *)
Fixpoint first_match (rules : list (list string * string)) (s : string) : string :=
  match rules with
  | [] => "other"
  | (subs, ty) :: rest =>
      if existsb (fun sub => str_in sub s) subs then ty else first_match rest s
  end.

Lemma normalize_is_first_match (hint : string) :
  _normalize_iface_type hint = first_match IFACE_RULES (lower hint).
Proof.
  unfold _normalize_iface_type.
  destruct hint as [|c hint]; [reflexivity|].
  change (negb (truthy (PStr (String c hint)))) with false.
  cbv beta iota.
  generalize (lower (String c hint)); intros s.
  unfold iface_type_rules. cbn [first_match IFACE_RULES existsb].
  repeat rewrite orb_false_r.
  repeat match goal with
         | |- context [str_in ?n s] => destruct (str_in n s); cbn [orb]
         end; reflexivity.
Qed.

(** C5. The interface type of a hint is the type of the first rule, in the
    order 100g, 25g, 40g, 10g, 1g/1000, lag/bond/port-channel, of which a
    substring occurs in the lowercased hint, else [other]. So a hint in
    which "100g" occurs gets the 100G type and not the 10G type, and a hint
    that falls through the speed rules to lag, bond or port-channel gets the
    link aggregation type. *)
Theorem iface_type_first_rule_wins (hint : string) :
  let s := lower hint in
  _normalize_iface_type hint = first_match IFACE_RULES s
  /\ (occurs "100g" s ->
      _normalize_iface_type hint = "100gbase-x-qsfp28"
      /\ _normalize_iface_type hint <> "10gbase-x-sfpp")
  /\ (occurs "lag" s \/ occurs "bond" s \/ occurs "port-channel" s ->
      ~ occurs "100g" s -> ~ occurs "25g" s -> ~ occurs "40g" s ->
      ~ occurs "10g" s -> ~ occurs "1g" s -> ~ occurs "1000" s ->
      _normalize_iface_type hint = "lag").
Proof.
  intros s. split; [apply normalize_is_first_match|].
  rewrite normalize_is_first_match. fold s. split.
  - intros H%str_in_occurs. cbn [first_match IFACE_RULES existsb].
    rewrite H. cbn [orb]. split; [reflexivity | discriminate].
  - intros Hlag H1%str_in_absent H2%str_in_absent H3%str_in_absent
      H4%str_in_absent H5%str_in_absent H6%str_in_absent.
    cbn [first_match IFACE_RULES existsb].
    rewrite H1, H2, H3, H4, H5, H6. cbn [orb].
    destruct Hlag as [H%str_in_occurs|[H%str_in_occurs|H%str_in_occurs]];
      rewrite H; cbn [orb]; repeat rewrite orb_true_r; reflexivity.
Qed.

Lemma iface_type_first_rule_wins_witness :
  _normalize_iface_type "100G-uplink" = "100gbase-x-qsfp28"
  /\ _normalize_iface_type "100G-uplink" <> "10gbase-x-sfpp"
  /\ _normalize_iface_type "Port-Channel7" = "lag".
Proof.
  split; [|split].
  - apply (proj1 (proj2 (iface_type_first_rule_wins "100G-uplink"))).
    now exists "", "-uplink".
  - apply (proj1 (proj2 (iface_type_first_rule_wins "100G-uplink"))).
    now exists "", "-uplink".
  - apply (proj2 (proj2 (iface_type_first_rule_wins "Port-Channel7")));
      try (apply str_in_absent; reflexivity).
    right; right. now exists "", "7".
Defined.

(** ** Rack power roll-up *)

(** The device [d] holds the integer [w] in its estimated-wattage custom
    field. *)
Inductive has_watts : pyval -> Z -> Prop :=
| HasWatts attrs cf w :
    lookup "custom_fields" attrs = Some (PDict cf) ->
    lookup "estimated_watts" cf = Some (PInt w) ->
    has_watts (PRec attrs) w.

Definition sum_watts (ws : list Z) : Z := fold_right Z.add 0 ws.

Lemma device_watts_of_field B d w :
  has_watts d w -> device_watts B d = Ok w.
Proof.
  intros [attrs cf w' Hcf Hw]. unfold device_watts.
  cbn [getattr_default]. unfold dict_get_default. rewrite Hcf.
  assert (Ht : truthy (PDict cf) = true) by (destruct cf; [discriminate | reflexivity]).
  replace (py_or (PDict cf) (PDict [])) with (PDict cf)
    by (unfold py_or; now rewrite Ht).
  cbn [method_get obind]. unfold dict_get. rewrite Hw.
  unfold py_or. cbn [truthy]. destruct (Z.eqb_spec w' 0) as [->|]; reflexivity.
Qed.

Lemma rack_watts_from_sum B devices ws acc :
  Forall2 has_watts devices ws ->
  rack_watts_from B acc devices = Ok (acc + sum_watts ws).
Proof.
  intros H; revert acc; induction H as [|d w devices ws Hd _ IH]; intros acc.
  - cbn. f_equal. lia.
  - cbn [rack_watts_from]. rewrite (device_watts_of_field B d w Hd).
    cbn [obind]. rewrite IH. cbn [sum_watts fold_right]. f_equal.
    unfold sum_watts. lia.
Qed.

(** C7. The roll-up is the sum of the estimated wattages of the devices of
    the rack; for the wattages 180, 220, 20, 800, 800, 250 and 350 it is
    2620. *)
Theorem rack_watts_is_sum B (devices : list pyval) (ws : list Z) :
  Forall2 has_watts devices ws ->
  rack_watts B devices = Ok (sum_watts ws)
  /\ (ws = [180; 220; 20; 800; 800; 250; 350] -> rack_watts B devices = Ok 2620).
Proof.
  intros H. unfold rack_watts. rewrite (rack_watts_from_sum B devices ws 0 H).
  split; [reflexivity|]. intros ->. reflexivity.
Qed.

(** Builtins for concrete runs that do not reach them. *)
Definition plain_builtins : builtins :=
  {| py_repr := fun _ => "..."; int_of_str := fun _ => Raised ValueError |}.

(** A device as the devices filter returns it, with its custom fields. *)
Definition device_with_watts (name : string) (w : Z) : pyval :=
  PRec [("name", PStr name);
        ("custom_fields",
         PDict [("cluster_name", PStr "atlas"); ("estimated_watts", PInt w)])].

(** The seven devices of lines 233-239. *)
Definition demo_rack : list pyval :=
  [device_with_watts "TOR-SFDP-01" 180; device_with_watts "AGG-SFDP-01" 220;
   device_with_watts "PDU-SFDP-01" 20; device_with_watts "GPU-SFDP-01" 800;
   device_with_watts "GPU-SFDP-02" 800; device_with_watts "CPU-SFDP-01" 250;
   device_with_watts "STOR-SFDP-01" 350].

Lemma rack_watts_is_sum_witness :
  rack_watts plain_builtins demo_rack = Ok 2620.
Proof.
  apply (rack_watts_is_sum plain_builtins demo_rack
           [180; 220; 20; 800; 800; 250; 350]); [|reflexivity].
  unfold demo_rack.
  repeat (constructor; [eapply HasWatts; reflexivity|]). constructor.
Defined.

(** ** The trace printer *)

(** The body [[{"device":{"name":"GPU-1"}}, null, {"device":{"name":"TOR-1"}}]]. *)
Definition named_device (name : string) : pyval :=
  PDict [("device", PDict [("name", PStr name)])].

Definition one_hop_trace : pyval :=
  PList [PList [named_device "GPU-1"; PNone; named_device "TOR-1"]].

(** A terminus that names its device and nothing else renders as
    [term:@device]. *)
Lemma term_to_str_named_device B (name : string) :
  name <> "" ->
  _term_to_str B (named_device name) = Ok ("term:" ++ "@" ++ name).
Proof.
  intros Hne. unfold _term_to_str, named_device.
  cbn [truthy negb dict_get lookup String.eqb Ascii.eqb Bool.eqb].
  assert (Ht : truthy (PStr name) = true)
    by (destruct name; [now elim Hne | reflexivity]).
  unfold py_or at 1. cbn [truthy].
  cbn [method_get obind dict_get lookup String.eqb Ascii.eqb Bool.eqb].
  unfold or_else. rewrite Ht. cbn [obind]. rewrite Ht. reflexivity.
Qed.

(** A hop of three whose cable slot is not a record gets the literal label
    [cable]. *)
Lemma hop_line_literal_label B (lft cable rgt : pyval) :
  is_dict cable = false ->
  hop_line B (PList [lft; cable; rgt])
  = obind (_term_to_str B lft) (fun l =>
    obind (_term_to_str B rgt) (fun r =>
    Ok (hop_text B l (PStr "cable") r))).
Proof.
  intros Hc. unfold hop_line. cbn [py_len List.length obind Nat.eqb py_iter].
  now rewrite Hc.
Qed.

(** C8. On that body the printer prints, after the title, exactly one hop
    line; the line has the hop form with the literal label [cable], and
    each terminus is rendered from the device name. *)
Theorem one_hop_trace_rendering B (title : string) :
  print_interface_trace_raw B one_hop_trace title
  = ([title_line title; OutLine "   term:@GPU-1  --[cable]-->  term:@TOR-1"], Ok tt)
  /\ hop_text B "term:@GPU-1" (PStr "cable") "term:@TOR-1"
     = "   term:@GPU-1  --[cable]-->  term:@TOR-1"
  /\ _term_to_str B (named_device "GPU-1") = Ok "term:@GPU-1"
  /\ _term_to_str B (named_device "TOR-1") = Ok "term:@TOR-1".
Proof.
  assert (Hl : _term_to_str B (named_device "GPU-1") = Ok "term:@GPU-1")
    by (apply term_to_str_named_device; discriminate).
  assert (Hr : _term_to_str B (named_device "TOR-1") = Ok "term:@TOR-1")
    by (apply term_to_str_named_device; discriminate).
  split; [|split; [reflexivity | split; assumption]].
  unfold print_interface_trace_raw, one_hop_trace. cbn [print_each].
  rewrite hop_line_literal_label by reflexivity.
  rewrite Hl, Hr. reflexivity.
Qed.

Lemma print_each_only_lines line items v :
  ~ In (OutDump v) (fst (print_each line items)).
Proof.
  induction items as [|x items IH]; cbn [print_each]; [intros []|].
  destruct (line x); [|intros []].
  destruct (print_each line items) as [o r]. cbn [fst] in *.
  intros [H|H]; [discriminate | exact (IH H)].
Qed.

(** The empty sequence takes the flat-list case: the title and nothing
    else, no raw dump. *)
Lemma empty_trace_prints_no_dump :
  print_interface_trace_raw plain_builtins (PList []) "Trace"
  = ([title_line "Trace"], Ok tt)
  /\ print_interface_trace_raw plain_builtins (PList []) "Trace"
     <> ([title_line "Trace"; OutLine "   [raw trace]"; OutDump (PList [])], Ok tt).
Proof. split; [reflexivity | discriminate]. Qed.

(** C3, as the code has it. A body that is not a sequence is dumped raw
    after the title and the [raw trace] line, and the printer returns; no
    sequence is dumped, and the empty one prints the title alone. *)
Theorem trace_fallback_raw_dump B (tr : pyval) (title : string) :
  (is_list tr = false ->
   print_interface_trace_raw B tr title
   = ([title_line title; OutLine "   [raw trace]"; OutDump tr], Ok tt))
  /\ (forall items v,
      ~ In (OutDump v) (fst (print_interface_trace_raw B (PList items) title)))
  /\ print_interface_trace_raw B (PList []) title = ([title_line title], Ok tt).
Proof.
  split; [|split].
  - destruct tr; try reflexivity. discriminate.
  - intros items v. unfold print_interface_trace_raw.
    destruct items as [|[] rest]; cbn [fst];
      (intros [H|H]; [discriminate | exact (print_each_only_lines _ _ _ H)]).
  - reflexivity.
Qed.

(** A single record where a sequence was expected. *)
Lemma trace_fallback_raw_dump_witness :
  print_interface_trace_raw plain_builtins (named_device "GPU-1") "Trace"
  = ([title_line "Trace"; OutLine "   [raw trace]"; OutDump (named_device "GPU-1")],
     Ok tt).
Proof.
  apply (proj1 (trace_fallback_raw_dump plain_builtins (named_device "GPU-1") "Trace")).
  reflexivity.
Defined.

(** ** Cabling *)

(** The termination [t] with another outcome of reading its cable. *)
Definition with_cable (t : termination) (r : outcome (option pyval)) : termination :=
  {| term_id := term_id t; term_cable := r |}.

Lemma has_cable_read_failure t e :
  _has_cable (with_cable t (Raised e)) = false.
Proof. unfold _has_cable, getattr_cable; cbn. destruct e; reflexivity. Qed.

Lemma has_cable_absent t :
  _has_cable (with_cable t (Ok None)) = false.
Proof. reflexivity. Qed.

(** C6. When either termination reports a cable, connecting them makes no
    call at all (so no cable is created) and returns without an error, for
    interfaces and for power terminations alike. A failed read of the cable
    attribute counts as no cable: the termination is taken to have none,
    and the connect runs exactly as it does when the attribute is absent. *)
Theorem connect_is_lenient_noop (N : netbox) (a b : termination) (w : world N) :
  (_has_cable a = true \/ _has_cable b = true ->
   cable_ifaces a b w = (Ok tt, w) /\ cable_power a b w = (Ok tt, w))
  /\ (forall e,
      _has_cable (with_cable a (Raised e)) = _has_cable (with_cable a (Ok None))
      /\ _has_cable (with_cable a (Raised e)) = false
      /\ cable_ifaces (with_cable a (Raised e)) b w
         = cable_ifaces (with_cable a (Ok None)) b w
      /\ cable_ifaces a (with_cable b (Raised e)) w
         = cable_ifaces a (with_cable b (Ok None)) w
      /\ cable_power (with_cable a (Raised e)) b w
         = cable_power (with_cable a (Ok None)) b w
      /\ cable_power a (with_cable b (Raised e)) w
         = cable_power a (with_cable b (Ok None)) w).
Proof.
  split.
  - intros H. unfold cable_ifaces, cable_power.
    assert (Hor : _has_cable a || _has_cable b = true)
      by (apply orb_true_iff; exact H).
    rewrite Hor. split; reflexivity.
  - intros e. unfold cable_ifaces, cable_power.
    rewrite !has_cable_read_failure, !has_cable_absent.
    repeat split.
Qed.

(** An interface that carries a cable, and one that does not. *)
Definition cabled_iface (id : Z) : termination :=
  {| term_id := PInt id; term_cable := Ok (Some (PRec [("id", PInt 900)])) |}.

Definition free_iface (id : Z) : termination :=
  {| term_id := PInt id; term_cable := Ok (Some PNone) |}.

Lemma connect_is_lenient_noop_witness :
  cable_ifaces (cabled_iface 1) (free_iface 2) (Mem.start true [])
  = (Ok tt, Mem.start true [])
  /\ cable_power (cabled_iface 1) (free_iface 2) (Mem.start true [])
     = (Ok tt, Mem.start true []).
Proof.
  apply (proj1 (connect_is_lenient_noop (Mem.service true)
                  (cabled_iface 1) (free_iface 2) (Mem.start true []))).
  left. reflexivity.
Defined.

(** ** Port utilization *)

(** [round_half_even] picks a nearest integer: it is within one half of
    the quotient. *)
Lemma round_half_even_nearest (num den : Z) :
  0 < den ->
  Z.abs (2 * (num - den * Float.round_half_even num den)) <= den.
Proof.
  intros Hden. unfold Float.round_half_even.
  pose proof (Z.div_mod num den ltac:(lia)) as Hdm.
  pose proof (Z.mod_pos_bound num den Hden) as Hr.
  destruct (Z.ltb_spec (2 * (num mod den)) den);
    [|destruct (Z.ltb_spec den (2 * (num mod den)));
      [|destruct (Z.even (num / den))]]; nia.
Qed.

(** Without the guard the division raises on an empty list. *)
Example unguarded_division_raises :
  Float.py_truediv (100 * 0) 0 = Raised ZeroDivisionError.
Proof. reflexivity. Qed.

(** Six of thirty-two ports cabled: 18.8 (the float nearest to it). *)
Example util_6_of_32 :
  util (repeat (cabled_iface 1) 6 ++ repeat (free_iface 2) 26)
  = Ok 0x1.2cccccccccccdp+4%float.
Proof. reflexivity. Qed.

(** C10. The utilization is guarded against a division by zero: with no
    port it is 0.0 and nothing is divided, and otherwise, once the cable
    attribute of every port has been read, it is the float
    [round(100 * used / total, 1)], the quotient rounded to one decimal;
    in neither case is an exception raised. *)
Theorem util_division_guarded (ifaces : list termination) :
  (ifaces = [] -> util ifaces = Ok 0%float)
  /\ (forall used, cabled ifaces = Ok used -> ifaces <> [] ->
      Float.py_truediv (100 * Z.of_nat (List.length used))
                       (Z.of_nat (List.length ifaces))
      = Ok (PrimFloat.div
              (Float.of_Z (100 * Z.of_nat (List.length used)))
              (Float.of_Z (Z.of_nat (List.length ifaces))))
      /\ util ifaces
         = Ok (Float.py_round1
                 (PrimFloat.div
                    (Float.of_Z (100 * Z.of_nat (List.length used)))
                    (Float.of_Z (Z.of_nat (List.length ifaces)))))).
Proof.
  split.
  - intros ->. reflexivity.
  - intros used Hc Hne. unfold util. rewrite Hc. cbn [obind truthy].
    assert (Hn : (Z.of_nat (List.length ifaces) =? 0) = false).
    { apply Z.eqb_neq. destruct ifaces; [now elim Hne | cbn [List.length]; lia]. }
    unfold Float.py_truediv. rewrite Hn. split; reflexivity.
Qed.

Lemma util_division_guarded_witness :
  util [] = Ok 0%float
  /\ util (repeat (cabled_iface 1) 6 ++ repeat (free_iface 2) 26)
     = Ok 0x1.2cccccccccccdp+4%float.
Proof.
  split.
  - apply (proj1 (util_division_guarded [])). reflexivity.
  - apply (proj2 (util_division_guarded
                    (repeat (cabled_iface 1) 6 ++ repeat (free_iface 2) 26))
             (repeat (cabled_iface 1) 6)); [reflexivity | discriminate].
Defined.

(** ** get_or_create *)

(** The identity the service gave an object. *)
Definition identity (o : pyval) : option pyval :=
  match o with
  | PRec fields | PDict fields => lookup "id" fields
  | _ => None
  end.

Lemma creates_app log c :
  creates (log ++ [c]) = (creates log + (if is_create c then 1 else 0))%nat.
Proof.
  unfold creates. rewrite filter_app, length_app. cbn [filter].
  destruct (is_create c); reflexivity.
Qed.

Lemma updates_app log c :
  updates (log ++ [c]) = (updates log + (if is_update c then 1 else 0))%nat.
Proof.
  unfold updates. rewrite filter_app, length_app. cbn [filter].
  destruct (is_update c); reflexivity.
Qed.

Section GetOrCreate.

Context {N : netbox}.
Variables (endpoint : string) (attrs : dict).

(** The service in [w] finds under the lookup key what it has just
    created. *)
Definition found_once_created (w : world N) : Prop :=
  forall o s,
    nb_create N endpoint (PDict attrs) (remote w) = (Ok o, s) ->
    exists o',
      nb_get N endpoint (lookup_key attrs) s = Ok (Some o')
      /\ lookup "id" o' = lookup "id" o.

(** An existing resource comes back as the lookup gave it, after the
    lookup alone: the service is left as it was. *)
Lemma get_or_create_existing (w : world N) o :
  nb_get N endpoint (lookup_key attrs) (remote w) = Ok (Some o) ->
  get_or_create endpoint attrs w
  = (Ok (PRec o), logged w (NbGet endpoint (lookup_key attrs)) (remote w)).
Proof.
  intros H. unfold get_or_create, bind, get. rewrite H. reflexivity.
Qed.

Lemma get_or_create_twice (w : world N) :
  found_once_created w ->
  forall o1 w1,
    get_or_create endpoint attrs w = (Ok o1, w1) ->
    exists o2 w2,
      get_or_create endpoint attrs w1 = (Ok o2, w2)
      /\ identity o2 = identity o1
      /\ remote w2 = remote w1
      /\ (creates (calls w2) <= creates (calls w) + 1)%nat.
Proof.
  intros Hlaw o1 w1. unfold get_or_create at 1, bind, get.
  destruct (nb_get N endpoint (lookup_key attrs) (remote w)) as [[o|]|e] eqn:Hget.
  - unfold ret. intros [= <- <-].
    eexists (PRec o), _.
    split; [|split; [|split]].
    + apply get_or_create_existing. exact Hget.
    + reflexivity.
    + reflexivity.
    + cbn [calls logged]. rewrite !creates_app. cbn [is_create]. lia.
  - unfold create. cbn [remote logged].
    destruct (nb_create N endpoint (PDict attrs) (remote w)) as [[o|e] s] eqn:Hc;
      cbn [obind]; [|discriminate].
    intros [= <- <-].
    destruct (Hlaw o s Hc) as (o' & Hget' & Hid).
    eexists (PRec o'), _. split; [|split; [|split]].
    + apply get_or_create_existing. exact Hget'.
    + exact Hid.
    + reflexivity.
    + cbn [calls logged]. rewrite !creates_app. cbn [is_create]. lia.
  - discriminate.
Qed.

End GetOrCreate.

(** C2. Where the service finds under a key what it has just created
    under it, two calls of get_or_create with the same attributes return
    objects of the same identity and make at most one create call between
    them. A resource that exists already is returned as it was looked up:
    the only call made is the lookup, so nothing is created and nothing
    is updated. *)
Theorem get_or_create_idempotent (N : netbox) (endpoint : string) (attrs : dict)
  (w : world N) :
  found_once_created endpoint attrs w ->
  (forall o1 w1,
     get_or_create endpoint attrs w = (Ok o1, w1) ->
     exists o2 w2,
       get_or_create endpoint attrs w1 = (Ok o2, w2)
       /\ identity o2 = identity o1
       /\ (creates (calls w2) <= creates (calls w) + 1)%nat)
  /\ (forall o,
      nb_get N endpoint (lookup_key attrs) (remote w) = Ok (Some o) ->
      exists w1,
        get_or_create endpoint attrs w = (Ok (PRec o), w1)
        /\ remote w1 = remote w
        /\ calls w1 = (calls w ++ [NbGet endpoint (lookup_key attrs)])%list
        /\ creates (calls w1) = creates (calls w)
        /\ updates (calls w1) = updates (calls w)).
Proof.
  intros Hlaw. split.
  - intros o1 w1 H.
    destruct (get_or_create_twice endpoint attrs w Hlaw o1 w1 H)
      as (o2 & w2 & H2 & Hid & _ & Hn).
    exists o2, w2. auto.
  - intros o Hget. eexists. split; [apply get_or_create_existing; exact Hget|].
    cbn [remote calls logged]. rewrite creates_app, updates_app.
    cbn [is_create is_update]. repeat split; lia.
Qed.

(** The site of line 207, on a service that holds nothing yet. *)
Definition site_attrs : dict :=
  [("name", PStr "SF-Dogpatch"); ("slug", PStr "sf-dogpatch")].

Lemma get_or_create_idempotent_witness :
  exists o2 w2,
    get_or_create "dcim/sites" site_attrs
      (snd (get_or_create "dcim/sites" site_attrs (Mem.start true [])))
    = (Ok o2, w2)
    /\ identity o2 = Some (PInt 1)
    /\ (creates (calls w2) <= 0 + 1)%nat.
Proof.
  assert (Hlaw : found_once_created "dcim/sites" site_attrs (Mem.start true [])).
  { intros o s [= <- <-]. eexists. split; reflexivity. }
  destruct (proj1 (get_or_create_idempotent (Mem.service true) "dcim/sites"
                     site_attrs (Mem.start true []) Hlaw)
              _ _ eq_refl) as (o2 & w2 & H & Hid & Hn).
  exists o2, w2. repeat split; assumption.
Defined.

(** ** Choice-set merge *)

(** A value decoded from JSON: no tuple and no Record in it. *)
Fixpoint is_json (v : pyval) : bool :=
  match v with
  | PNone | PBool _ | PInt _ | PStr _ => true
  | PList l => forallb is_json l
  | PDict kv => forallb (fun p => match p with (_, x) => is_json x end) kv
  | PTuple _ | PRec _ => false
  end.

Definition is_tuple (v : pyval) : bool :=
  match v with PTuple _ => true | _ => false end.

Lemma is_json_lookup fields k v :
  is_json (PDict fields) = true -> lookup k fields = Some v -> is_json v = true.
Proof.
  induction fields as [|[k' x] fields IH]; cbn [lookup]; [discriminate|].
  intros H. change (is_json x && is_json (PDict fields) = true) in H.
  apply andb_true_iff in H as [Hx Hrest].
  destruct (String.eqb k k'); [intros [= <-]; exact Hx | exact (IH Hrest)].
Qed.

Lemma is_json_items l :
  is_json (PList l) = true -> Forall (fun c => is_tuple c = false) l.
Proof.
  induction l as [|x l IH]; [constructor|].
  intros H. change (is_json x && is_json (PList l) = true) in H.
  apply andb_true_iff in H as [Hx Hrest].
  constructor; [destruct x; try reflexivity; discriminate | exact (IH Hrest)].
Qed.

(** Iterating over a JSON value never yields a tuple. *)
Lemma py_iter_json v items :
  is_json v = true -> py_iter v = Ok items ->
  Forall (fun c => is_tuple c = false) items.
Proof.
  destruct v; cbn [py_iter]; try discriminate.
  - intros _ [= <-]. apply Forall_forall. intros c Hc.
    apply in_map_iff in Hc as (x & <- & _). reflexivity.
  - intros H [= <-]. exact (is_json_items _ H).
  - intros _ [= <-]. apply Forall_forall. intros c Hc.
    apply in_map_iff in Hc as (x & <- & _). reflexivity.
Qed.

(** Without tuples the two normalisation loops agree. *)
Lemma norm_extra_agree items :
  Forall (fun c => is_tuple c = false) items ->
  norm_extra_nb items = norm_extra_http items.
Proof.
  induction 1 as [|c items Hc _ IH]; [reflexivity|].
  destruct c; cbn [norm_extra_nb norm_extra_http];
    first [discriminate Hc | now rewrite IH].
Qed.

(** Entries that are lists go through either loop as they are. *)
Lemma norm_extra_nb_lists items :
  Forall (fun c => is_list c = true) items -> norm_extra_nb items = items.
Proof.
  induction 1 as [|c items Hc _ IH]; [reflexivity|].
  destruct c; try discriminate. cbn [norm_extra_nb]. now rewrite IH.
Qed.

Lemma norm_extra_http_lists items :
  Forall (fun c => is_list c = true) items -> norm_extra_http items = items.
Proof.
  induction 1 as [|c items Hc _ IH]; [reflexivity|].
  destruct c; try discriminate. cbn [norm_extra_http]. now rewrite IH.
Qed.

(** The two transports run one merge: on the same fields, held by a Record
    on one side and by a decoded dict on the other, the existing values,
    the missing values and the new extra partition are the same. *)
Lemma merge_paths_agree fields values :
  is_json (PDict fields) = true ->
  merge_nb (PRec fields) values = merge_http (PDict fields) values.
Proof.
  intros Hjson. unfold merge_nb, merge_http.
  cbn [getattr_default method_get_default method_get obind].
  destruct (_vals_from_choices (dict_get_default fields "choices" (PList [])))
    as [existing_vals|e]; cbn [obind]; [|reflexivity].
  destruct (missing_values values existing_vals) as [missing|e];
    cbn [obind]; [|reflexivity].
  destruct (negb (truthy (PList missing))); [reflexivity|].
  assert (Hextra :
    py_or (dict_get_default fields "extra_choices" (PList [])) (PList [])
    = py_or (dict_get fields "extra_choices") (PList [])).
  { unfold dict_get_default, dict_get.
    destruct (lookup "extra_choices" fields); reflexivity. }
  rewrite Hextra.
  assert (Hj : is_json (py_or (dict_get fields "extra_choices") (PList [])) = true).
  { unfold py_or, dict_get.
    destruct (lookup "extra_choices" fields) as [x|] eqn:Hx; [|reflexivity].
    destruct (truthy x); [|reflexivity].
    exact (is_json_lookup _ _ _ Hjson Hx). }
  destruct (py_iter (py_or (dict_get fields "extra_choices") (PList [])))
    as [items|e] eqn:Hit; cbn [obind]; [|reflexivity].
  now rewrite (norm_extra_agree items (py_iter_json _ _ Hj Hit)).
Qed.

(** What the raw lookup answers when it found [cs] first: a positive count
    and [cs] at the head of the results. *)
Definition raw_found (data cs : pyval) : Prop :=
  exists d n more,
    data = PDict d /\ lookup "count" d = Some (PInt n) /\ 0 < n
    /\ lookup "results" d = Some (PList (cs :: more)).

Definition name_filter (name : string) : dict := [("name", PStr name)].

Definition raw_params (name : string) : dict :=
  [("name", PStr name); ("limit", PInt 0)].

(** The write of each transport that sets the extra partition of [id]. *)
Definition update_extra (id : pyval) (extra : list pyval) : call :=
  NbUpdate CHOICE_SETS (PList [PDict [("id", id); ("extra_choices", PList extra)]]).

Definition patch_extra (id : pyval) (extra : list pyval) : call :=
  HttpPatch CHOICE_SETS id (PDict [("extra_choices", PList extra)]).

Section MergeRuns.

Context {N : netbox}.
Variables (name : string) (values : list pyval) (w : world N).

Lemma nb_run_updates cs id extra :
  nb_get N CHOICE_SETS (name_filter name) (remote w) = Ok (Some cs) ->
  merge_nb (PRec cs) values = Ok (Some extra) ->
  lookup "id" cs = Some id ->
  calls (snd (ensure_choice_set_nb name values w))
  = (calls w ++ [NbGet CHOICE_SETS (name_filter name); update_extra id extra])%list.
Proof.
  intros Hget Hmerge Hid.
  unfold ensure_choice_set_nb, bind, get. fold (name_filter name).
  rewrite Hget. unfold lift at 1. rewrite Hmerge.
  unfold lift at 1, getattr. rewrite Hid.
  unfold update. cbn [remote logged].
  destruct (nb_update N CHOICE_SETS _ (remote w)) as [[l|e] s]; cbn [obind];
    cbn [snd calls logged lift]; now rewrite <- app_assoc.
Qed.

Lemma nb_run_keeps cs :
  nb_get N CHOICE_SETS (name_filter name) (remote w) = Ok (Some cs) ->
  merge_nb (PRec cs) values = Ok None ->
  ensure_choice_set_nb name values w
  = (Ok (PRec cs), logged w (NbGet CHOICE_SETS (name_filter name)) (remote w)).
Proof.
  intros Hget Hmerge.
  unfold ensure_choice_set_nb, bind, get. fold (name_filter name).
  rewrite Hget. unfold lift at 1. rewrite Hmerge. reflexivity.
Qed.

Lemma http_run_head data cs :
  http_get N CHOICE_SETS (raw_params name) (remote w) = Ok data ->
  raw_found data cs ->
  ensure_choice_set_http name values w
  = (plan <- lift (merge_http cs values) ;;
     match plan with
     | None => ret cs
     | Some extra =>
         id <- lift (getitem cs "id") ;;
         session_patch CHOICE_SETS id (PDict [("extra_choices", PList extra)])
     end) (logged w (HttpGet CHOICE_SETS (raw_params name)) (remote w)).
Proof.
  intros Hget (d & n & more & -> & Hcount & Hn & Hres).
  unfold ensure_choice_set_http. unfold bind at 1, session_get.
  fold (raw_params name). rewrite Hget.
  unfold bind at 1, lift at 1, method_get_default, dict_get_default.
  rewrite Hcount.
  unfold bind at 1, lift at 1, py_gt0.
  replace (0 <? n) with true by (symmetry; apply Z.ltb_lt; exact Hn).
  unfold bind at 1, lift at 1, getitem. rewrite Hres.
  unfold bind at 1, lift at 1. cbn [index0 first_item]. reflexivity.
Qed.

Lemma http_run_updates data cs id extra :
  http_get N CHOICE_SETS (raw_params name) (remote w) = Ok data ->
  raw_found data (PDict cs) ->
  merge_http (PDict cs) values = Ok (Some extra) ->
  lookup "id" cs = Some id ->
  calls (snd (ensure_choice_set_http name values w))
  = (calls w ++ [HttpGet CHOICE_SETS (raw_params name); patch_extra id extra])%list.
Proof.
  intros Hget Hfound Hmerge Hid.
  rewrite (http_run_head data (PDict cs) Hget Hfound).
  unfold bind, lift. rewrite Hmerge. cbn [getitem]. rewrite Hid.
  unfold session_patch. cbn [remote logged].
  destruct (http_patch N CHOICE_SETS id _ (remote w)) as [r s].
  cbn [snd calls logged]. now rewrite <- app_assoc.
Qed.

Lemma http_run_keeps data cs :
  http_get N CHOICE_SETS (raw_params name) (remote w) = Ok data ->
  raw_found data cs ->
  merge_http cs values = Ok None ->
  ensure_choice_set_http name values w
  = (Ok cs, logged w (HttpGet CHOICE_SETS (raw_params name)) (remote w)).
Proof.
  intros Hget Hfound Hmerge.
  rewrite (http_run_head data cs Hget Hfound).
  unfold bind, lift. rewrite Hmerge. reflexivity.
Qed.

End MergeRuns.

(** The merge on a set whose extra entries are lists: the entries stay, in
    their order, and a pair follows for every missing value, in the order
    of the request. *)
Lemma merge_appends_missing cs values extra vals missing :
  lookup "extra_choices" cs = Some (PList extra) ->
  Forall (fun c => is_list c = true) extra ->
  _vals_from_choices (dict_get_default cs "choices" (PList [])) = Ok vals ->
  missing_values values vals = Ok missing ->
  missing <> [] ->
  merge_nb (PRec cs) values = Ok (Some (extra ++ pairs_of missing)%list)
  /\ merge_http (PDict cs) values = Ok (Some (extra ++ pairs_of missing)%list).
Proof.
  intros Hextra Hlists Hvals Hmiss Hne.
  assert (Hiter : py_iter (py_or (PList extra) (PList [])) = Ok extra)
    by (destruct extra; reflexivity).
  assert (Ht : negb (truthy (PList missing)) = false)
    by (destruct missing; [now elim Hne | reflexivity]).
  unfold merge_nb, merge_http.
  cbn [getattr_default method_get_default method_get obind].
  rewrite Hvals. cbn [obind]. rewrite Hmiss. cbn [obind]. rewrite Ht.
  unfold dict_get_default at 1, dict_get. rewrite Hextra, Hiter. cbn [obind].
  now rewrite norm_extra_nb_lists, norm_extra_http_lists.
Qed.

(** The request that sets the extra partition of the existing set [cs] to
    [new_extra], on whichever transport the client has: after the lookup
    that found [cs], one update (structured path) or one patch (raw path)
    carrying [new_extra] and nothing else of the set. *)
Definition merge_requests (N : netbox) (w : world N) (name : string)
  (values : list pyval) (cs : dict) (id : pyval) (new_extra : list pyval) : Prop :=
  (has_choice_sets N = true ->
   nb_get N CHOICE_SETS (name_filter name) (remote w) = Ok (Some cs) ->
   calls (snd (ensure_choice_set name values w))
   = (calls w ++ [NbGet CHOICE_SETS (name_filter name); update_extra id new_extra])%list)
  /\ (has_choice_sets N = false ->
      forall data,
        http_get N CHOICE_SETS (raw_params name) (remote w) = Ok data ->
        raw_found data (PDict cs) ->
        calls (snd (ensure_choice_set name values w))
        = (calls w ++ [HttpGet CHOICE_SETS (raw_params name);
                       patch_extra id new_extra])%list).

Lemma merge_requests_intro N (w : world N) name values cs id new_extra :
  lookup "id" cs = Some id ->
  merge_nb (PRec cs) values = Ok (Some new_extra) ->
  merge_http (PDict cs) values = Ok (Some new_extra) ->
  merge_requests N w name values cs id new_extra.
Proof.
  intros Hid Hnb Hhttp. split.
  - intros Hcs Hget. unfold ensure_choice_set. rewrite Hcs.
    now apply nb_run_updates with (cs := cs).
  - intros Hcs data Hget Hfound. unfold ensure_choice_set. rewrite Hcs.
    now apply http_run_updates with (data := data) (cs := cs).
Qed.

(** A set whose fixed partition already holds [c]: nothing is missing from
    the request [b, c], so the set is returned as it is and its extra
    partition stays [(a,a), (b,b)]. *)
Definition pair_of (v : string) : pyval := PList [PStr v; PStr v].

Definition set_with_base : dict :=
  [("id", PInt 7); ("name", PStr "hpc_role");
   ("base_choices", PStr "letters");
   ("extra_choices", PList [pair_of "a"; pair_of "b"]);
   ("choices", PList [pair_of "c"; pair_of "a"; pair_of "b"])].

Lemma merge_skips_values_of_base :
  ensure_choice_set "hpc_role" [PStr "b"; PStr "c"]
    (Mem.start true [(CHOICE_SETS, [set_with_base])])
  = (Ok (PRec set_with_base),
     {| remote := [(CHOICE_SETS, [set_with_base])] : state (Mem.service true);
        calls := [NbGet CHOICE_SETS (name_filter "hpc_role")] |})
  /\ ensure_choice_set "hpc_role" [PStr "b"; PStr "c"]
       (Mem.start false [(CHOICE_SETS, [set_with_base])])
     = (Ok (PDict set_with_base),
        {| remote := [(CHOICE_SETS, [set_with_base])] : state (Mem.service false);
           calls := [HttpGet CHOICE_SETS (raw_params "hpc_role")] |})
  /\ lookup "extra_choices" set_with_base = Some (PList [pair_of "a"; pair_of "b"]).
Proof. repeat split. Qed.

(** C1, as the code has it. The values already held are read from the
    [choices] of the set, both partitions together. For a set with the
    extra partition [(a,a), (b,b)] whose choices hold [b] and not [c], the
    request [b, c] sets the extra partition to [(a,a), (b,b), (c,c)]. In
    general the extra entries stay as they are and in their order, and a
    pair (v,v) follows for each requested value that is missing, in the
    order of the request. *)
Theorem choice_set_merge_appends (N : netbox) (w : world N) (name : string)
  (cs : dict) (id : pyval) :
  lookup "id" cs = Some id ->
  (forall (a b c : string) vals,
     lookup "extra_choices" cs = Some (PList [pair_of a; pair_of b]) ->
     _vals_from_choices (dict_get_default cs "choices" (PList [])) = Ok vals ->
     py_in (PStr b) vals = true ->
     py_in (PStr c) vals = false ->
     merge_requests N w name [PStr b; PStr c] cs id
       [pair_of a; pair_of b; pair_of c])
  /\ (forall values extra vals missing,
      lookup "extra_choices" cs = Some (PList extra) ->
      Forall (fun e => is_list e = true) extra ->
      _vals_from_choices (dict_get_default cs "choices" (PList [])) = Ok vals ->
      missing_values values vals = Ok missing ->
      missing <> [] ->
      merge_requests N w name values cs id (extra ++ pairs_of missing)%list).
Proof.
  intros Hid. split.
  - intros a b c vals Hextra Hvals Hb Hc.
    assert (Hmiss : missing_values [PStr b; PStr c] vals = Ok [PStr c]).
    { cbn [missing_values hashable obind]. now rewrite Hb, Hc. }
    assert (Hlists : Forall (fun e => is_list e = true) [pair_of a; pair_of b])
      by (repeat constructor).
    assert (Hne : [PStr c] <> []) by discriminate.
    destruct (merge_appends_missing cs [PStr b; PStr c] _ vals [PStr c]
                Hextra Hlists Hvals Hmiss Hne) as [Hnb Hhttp].
    now apply merge_requests_intro.
  - intros values extra vals missing Hextra Hlists Hvals Hmiss Hne.
    destruct (merge_appends_missing cs values extra vals missing) as [Hnb Hhttp];
      auto.
    now apply merge_requests_intro.
Qed.

(** The set of the claim, with no fixed partition. *)
Definition set_a_b : dict :=
  [("id", PInt 7); ("name", PStr "hpc_role");
   ("extra_choices", PList [pair_of "a"; pair_of "b"]);
   ("choices", PList [pair_of "a"; pair_of "b"])].

Lemma choice_set_merge_appends_witness :
  calls (snd (ensure_choice_set "hpc_role" [PStr "b"; PStr "c"]
                (Mem.start true [(CHOICE_SETS, [set_a_b])])))
  = [NbGet CHOICE_SETS (name_filter "hpc_role");
     update_extra (PInt 7) [pair_of "a"; pair_of "b"; pair_of "c"]]
  /\ calls (snd (ensure_choice_set "hpc_role" [PStr "b"; PStr "c"]
                   (Mem.start false [(CHOICE_SETS, [set_a_b])])))
     = [HttpGet CHOICE_SETS (raw_params "hpc_role");
        patch_extra (PInt 7) [pair_of "a"; pair_of "b"; pair_of "c"]].
Proof.
  split.
  - apply (proj1 (proj1 (choice_set_merge_appends (Mem.service true)
                           (Mem.start true [(CHOICE_SETS, [set_a_b])])
                           "hpc_role" set_a_b (PInt 7) eq_refl)
                   "a" "b" "c" [PStr "a"; PStr "b"]
                   eq_refl eq_refl eq_refl eq_refl)); reflexivity.
  - apply (proj2 (proj1 (choice_set_merge_appends (Mem.service false)
                           (Mem.start false [(CHOICE_SETS, [set_a_b])])
                           "hpc_role" set_a_b (PInt 7) eq_refl)
                   "a" "b" "c" [PStr "a"; PStr "b"]
                   eq_refl eq_refl eq_refl eq_refl) eq_refl
             (PDict [("count", PInt 1); ("results", PList [PDict set_a_b])])
             eq_refl).
    exists [("count", PInt 1); ("results", PList [PDict set_a_b])], 1, [].
    repeat split; reflexivity.
Defined.

(** ** The two transports of ensure_choice_set *)

(** What a call asks of the service, whatever the transport: look a set up
    by name, set the extra partition of a set, create a set. *)
Inductive request : Type :=
| Lookup (collection : string) (name : pyval)
| SetExtra (collection : string) (id : pyval) (extra : pyval)
| Create (collection : string) (data : pyval)
| Other (c : call).

Definition request_of (c : call) : request :=
  match c with
  | NbGet ep [(k, n)] =>
      if String.eqb k "name" then Lookup ep n else Other c
  | HttpGet ep [(k, n); (l, PInt 0)] =>
      if String.eqb k "name" && String.eqb l "limit" then Lookup ep n else Other c
  | NbUpdate ep (PList [PDict [(i, id); (x, extra)]]) =>
      if String.eqb i "id" && String.eqb x "extra_choices"
      then SetExtra ep id extra else Other c
  | HttpPatch ep id (PDict [(x, extra)]) =>
      if String.eqb x "extra_choices" then SetExtra ep id extra else Other c
  | NbCreate ep data | HttpPost ep data => Create ep data
  | _ => Other c
  end.

(** What the raw lookup answers when no set has the name: a count that is
    not positive. *)
Definition raw_absent (data : pyval) : Prop :=
  exists count,
    method_get_default data "count" (PInt 0) = Ok count
    /\ py_gt0 count = Ok false.

Section Transports.

Context {N : netbox}.
Variables (name : string) (values : list pyval) (w : world N).

Lemma transports_agree_found cs data :
  is_json (PDict cs) = true ->
  nb_get N CHOICE_SETS (name_filter name) (remote w) = Ok (Some cs) ->
  http_get N CHOICE_SETS (raw_params name) (remote w) = Ok data ->
  raw_found data (PDict cs) ->
  map request_of (calls (snd (ensure_choice_set_nb name values w)))
  = map request_of (calls (snd (ensure_choice_set_http name values w))).
Proof.
  intros Hjson Hnb Hhttp Hfound.
  pose proof (merge_paths_agree cs values Hjson) as Hagree.
  destruct (merge_nb (PRec cs) values) as [[extra|]|e] eqn:Hm.
  - destruct (lookup "id" cs) as [id|] eqn:Hid.
    + rewrite (nb_run_updates name values w cs id extra Hnb Hm Hid).
      rewrite (http_run_updates name values w data cs id extra Hhttp Hfound
                 (eq_sym Hagree) Hid).
      rewrite !map_app. reflexivity.
    + rewrite (http_run_head name values w data (PDict cs) Hhttp Hfound).
      unfold ensure_choice_set_nb, bind, get. fold (name_filter name).
      rewrite Hnb. unfold lift. rewrite Hm, <- Hagree.
      cbn [getattr getitem]. rewrite Hid.
      cbn [snd calls logged]. rewrite !map_app. reflexivity.
  - rewrite (nb_run_keeps name values w cs Hnb Hm).
    rewrite (http_run_keeps name values w data (PDict cs) Hhttp Hfound
               (eq_sym Hagree)).
    cbn [snd calls logged]. rewrite !map_app. reflexivity.
  - rewrite (http_run_head name values w data (PDict cs) Hhttp Hfound).
    unfold ensure_choice_set_nb, bind, get. fold (name_filter name).
    rewrite Hnb. unfold lift. rewrite Hm, <- Hagree.
    cbn [snd calls logged]. rewrite !map_app. reflexivity.
Qed.

Lemma transports_agree_absent data :
  nb_get N CHOICE_SETS (name_filter name) (remote w) = Ok None ->
  http_get N CHOICE_SETS (raw_params name) (remote w) = Ok data ->
  raw_absent data ->
  map request_of (calls (snd (ensure_choice_set_nb name values w)))
  = map request_of (calls (snd (ensure_choice_set_http name values w))).
Proof.
  intros Hnb Hhttp (count & Hcount & Hgt).
  unfold ensure_choice_set_nb, ensure_choice_set_http, bind, get, session_get.
  fold (name_filter name) (raw_params name).
  rewrite Hnb, Hhttp. unfold lift. rewrite Hcount, Hgt.
  unfold create, session_post. cbn [remote logged].
  destruct (nb_create N CHOICE_SETS _ (remote w)) as [r1 s1].
  destruct (http_post N CHOICE_SETS _ (remote w)) as [r2 s2].
  cbn [snd calls logged]. rewrite !map_app. reflexivity.
Qed.

End Transports.

(** C4. The structured path and the raw fallback run one merge. On the
    same decoded fields of the existing set they compute the same existing
    values, the same missing values and the same new extra partition (or
    raise the same exception). So, started on the same service, the two
    paths ask the same of it: the lookup alone when nothing is missing, a
    write of the same extra partition to the same set otherwise, and the
    same creation when no set has the name. *)
Theorem choice_set_transports_agree (N : netbox) (w : world N) (name : string)
  (values : list pyval) :
  (forall fields,
     is_json (PDict fields) = true ->
     merge_nb (PRec fields) values = merge_http (PDict fields) values)
  /\ (forall cs data,
      is_json (PDict cs) = true ->
      nb_get N CHOICE_SETS (name_filter name) (remote w) = Ok (Some cs) ->
      http_get N CHOICE_SETS (raw_params name) (remote w) = Ok data ->
      raw_found data (PDict cs) ->
      map request_of (calls (snd (ensure_choice_set_nb name values w)))
      = map request_of (calls (snd (ensure_choice_set_http name values w))))
  /\ (forall data,
      nb_get N CHOICE_SETS (name_filter name) (remote w) = Ok None ->
      http_get N CHOICE_SETS (raw_params name) (remote w) = Ok data ->
      raw_absent data ->
      map request_of (calls (snd (ensure_choice_set_nb name values w)))
      = map request_of (calls (snd (ensure_choice_set_http name values w)))).
Proof.
  split; [|split].
  - intros fields. apply merge_paths_agree.
  - apply transports_agree_found.
  - apply transports_agree_absent.
Qed.

Lemma choice_set_transports_agree_witness :
  merge_nb (PRec set_a_b) [PStr "b"; PStr "c"]
  = merge_http (PDict set_a_b) [PStr "b"; PStr "c"]
  /\ map request_of
       (calls (snd (ensure_choice_set_nb "hpc_role" [PStr "b"; PStr "c"]
                      (Mem.start true [(CHOICE_SETS, [set_a_b])]))))
     = map request_of
         (calls (snd (ensure_choice_set_http "hpc_role" [PStr "b"; PStr "c"]
                        (Mem.start true [(CHOICE_SETS, [set_a_b])])))).
Proof.
  split.
  - apply (proj1 (choice_set_transports_agree (Mem.service true)
                    (Mem.start true [(CHOICE_SETS, [set_a_b])])
                    "hpc_role" [PStr "b"; PStr "c"])).
    reflexivity.
  - apply (proj1 (proj2 (choice_set_transports_agree (Mem.service true)
                           (Mem.start true [(CHOICE_SETS, [set_a_b])])
                           "hpc_role" [PStr "b"; PStr "c"]))
             set_a_b
             (PDict [("count", PInt 1); ("results", PList [PDict set_a_b])]));
      try reflexivity.
    exists [("count", PInt 1); ("results", PList [PDict set_a_b])], 1, [].
    repeat split; reflexivity.
Defined.

Example transports_requests :
  map request_of
    (calls (snd (ensure_choice_set_http "hpc_role" [PStr "b"; PStr "c"]
                   (Mem.start false [(CHOICE_SETS, [set_a_b])]))))
  = [Lookup CHOICE_SETS (PStr "hpc_role");
     SetExtra CHOICE_SETS (PInt 7) (PList [pair_of "a"; pair_of "b"; pair_of "c"])].
Proof. reflexivity. Qed.

(** ** Select custom fields *)

(** [choice_set_name] after lines 169-170. *)
Definition resolved_set_name (name : string) (choice_set_name : option string) : string :=
  match choice_set_name with
  | Some n => if truthy (PStr n) then n else name
  | None => name
  end.

Definition cf_filter (name : string) : dict := [("name", PStr name)].

(** The update that repoints the field [cf_id] to the set [cs_id]. *)
Definition repoint (name label : string) (cf_id cs_id : pyval) : pyval :=
  PList [PDict (("id", cf_id) :: cf_select_payload name label cs_id)].

Section SelectField.

Context {N : netbox}.
Variables (name label : string) (values : list pyval)
  (choice_set_name : option string).
Variables (w w1 : world N) (cs cs_id : pyval) (cf : dict) (current : pyval).

Hypothesis set_resolved :
  ensure_choice_set (resolved_set_name name choice_set_name) values w = (Ok cs, w1).
Hypothesis set_identity : choice_set_id cs = Ok cs_id.
Hypothesis field_exists :
  nb_get N CUSTOM_FIELDS (cf_filter name) (remote w1) = Ok (Some cf).
Hypothesis field_binding : current_choice_set_id (PRec cf) = Ok current.

Lemma ensure_cf_select_head :
  ensure_cf_select name label values choice_set_name w
  = (if negb (py_eq current cs_id)
     then id <- lift (getattr (PRec cf) "id") ;;
          updated <- update CUSTOM_FIELDS
                       (PList [PDict (("id", id) :: cf_select_payload name label cs_id)]) ;;
          lift (first_item updated)
     else ret (PRec cf))
      (logged w1 (NbGet CUSTOM_FIELDS (cf_filter name)) (remote w1)).
Proof.
  unfold ensure_cf_select. fold (resolved_set_name name choice_set_name).
  unfold bind at 1. rewrite set_resolved.
  unfold bind at 1, lift at 1. rewrite set_identity.
  unfold bind at 1, get. fold (cf_filter name). rewrite field_exists.
  unfold bind at 1, lift at 1. rewrite field_binding. reflexivity.
Qed.

Lemma ensure_cf_select_repoints cf_id :
  py_eq current cs_id = false ->
  lookup "id" cf = Some cf_id ->
  ensure_cf_select name label values choice_set_name w
  = (let (r, s) := nb_update N CUSTOM_FIELDS (repoint name label cf_id cs_id)
                     (remote w1) in
     (obind r (fun l => first_item (map PRec l)),
      {| remote := s;
         calls := calls w1 ++ [NbGet CUSTOM_FIELDS (cf_filter name);
                               NbUpdate CUSTOM_FIELDS (repoint name label cf_id cs_id)] |})).
Proof.
  intros Hne Hid. rewrite ensure_cf_select_head, Hne. cbn [negb].
  unfold bind, lift, getattr. rewrite Hid. unfold update, repoint.
  cbn [remote logged].
  destruct (nb_update N CUSTOM_FIELDS _ (remote w1)) as [[l|e] s]; cbn [obind];
    unfold logged; cbn [calls remote]; now rewrite <- app_assoc.
Qed.

Lemma ensure_cf_select_keeps :
  py_eq current cs_id = true ->
  ensure_cf_select name label values choice_set_name w
  = (Ok (PRec cf),
     {| remote := remote w1;
        calls := calls w1 ++ [NbGet CUSTOM_FIELDS (cf_filter name)] |}).
Proof.
  intros Heq. rewrite ensure_cf_select_head, Heq. reflexivity.
Qed.

End SelectField.

(** C9. Let the choice set be resolved for the desired values, with
    identity [cs_id], and let the field exist already. If the field is
    bound to another identity, one update of the field is issued, carrying
    the identity of the field and the payload that binds it to [cs_id],
    and its first result is returned; it is the only call after the
    lookup of the field. If the field is bound to [cs_id] already, the
    field is returned as it was looked up and the lookup is the last
    call: no update is issued. *)
Theorem ensure_cf_select_reconciles_binding (N : netbox) (name label : string)
  (values : list pyval) (choice_set_name : option string)
  (w w1 : world N) (cs cs_id : pyval) (cf : dict) (current : pyval) :
  ensure_choice_set (resolved_set_name name choice_set_name) values w = (Ok cs, w1) ->
  choice_set_id cs = Ok cs_id ->
  nb_get N CUSTOM_FIELDS (cf_filter name) (remote w1) = Ok (Some cf) ->
  current_choice_set_id (PRec cf) = Ok current ->
  (py_eq current cs_id = false ->
   forall cf_id, lookup "id" cf = Some cf_id ->
   ensure_cf_select name label values choice_set_name w
   = (let (r, s) := nb_update N CUSTOM_FIELDS (repoint name label cf_id cs_id)
                      (remote w1) in
      (obind r (fun l => first_item (map PRec l)),
       {| remote := s;
          calls := calls w1 ++ [NbGet CUSTOM_FIELDS (cf_filter name);
                                NbUpdate CUSTOM_FIELDS (repoint name label cf_id cs_id)] |})))
  /\ (py_eq current cs_id = true ->
      ensure_cf_select name label values choice_set_name w
      = (Ok (PRec cf),
         {| remote := remote w1;
            calls := calls w1 ++ [NbGet CUSTOM_FIELDS (cf_filter name)] |})).
Proof.
  intros Hcs Hid Hcf Hcur. split.
  - intros Hne cf_id Hcfid.
    exact (ensure_cf_select_repoints name label values choice_set_name
             w w1 cs cs_id cf current Hcs Hid Hcf Hcur cf_id Hne Hcfid).
  - intros Heq.
    exact (ensure_cf_select_keeps name label values choice_set_name
             w w1 cs cs_id cf current Hcs Hid Hcf Hcur Heq).
Qed.

(** A field bound to the set 3 while the set resolved for it is 7, and the
    same field bound to 7. *)
Definition field_bound_to (cs_id : Z) : dict :=
  [("id", PInt 9); ("name", PStr "hpc_role"); ("type", PStr "select");
   ("choice_set", PRec [("id", PInt cs_id)])].

Definition service_with_field (cs_id : Z) : Mem.store :=
  [(CHOICE_SETS, [set_a_b]); (CUSTOM_FIELDS, [field_bound_to cs_id])].

Lemma ensure_cf_select_reconciles_binding_witness :
  calls (snd (ensure_cf_select "hpc_role" "HPC Role" [PStr "a"; PStr "b"] None
                (Mem.start true (service_with_field 3))))
  = [NbGet CHOICE_SETS (name_filter "hpc_role");
     NbGet CUSTOM_FIELDS (cf_filter "hpc_role");
     NbUpdate CUSTOM_FIELDS (repoint "hpc_role" "HPC Role" (PInt 9) (PInt 7))]
  /\ ensure_cf_select "hpc_role" "HPC Role" [PStr "a"; PStr "b"] None
       (Mem.start true (service_with_field 7))
     = (Ok (PRec (field_bound_to 7)),
        {| remote := service_with_field 7 : state (Mem.service true);
           calls := [NbGet CHOICE_SETS (name_filter "hpc_role");
                     NbGet CUSTOM_FIELDS (cf_filter "hpc_role")] |}).
Proof.
  split.
  - rewrite (proj1 (ensure_cf_select_reconciles_binding (Mem.service true)
                      "hpc_role" "HPC Role" [PStr "a"; PStr "b"] None
                      (Mem.start true (service_with_field 3))
                      _ (PRec set_a_b) (PInt 7) (field_bound_to 3) (PInt 3)
                      eq_refl eq_refl eq_refl eq_refl)
               eq_refl (PInt 9) eq_refl).
    reflexivity.
  - apply (proj2 (ensure_cf_select_reconciles_binding (Mem.service true)
                    "hpc_role" "HPC Role" [PStr "a"; PStr "b"] None
                    (Mem.start true (service_with_field 7))
                    _ (PRec set_a_b) (PInt 7) (field_bound_to 7) (PInt 7)
                    eq_refl eq_refl eq_refl eq_refl)
             eq_refl).
Defined.

(** * Further properties of the helpers *)

(** ** The value set of a choice list *)

(** A choice list in its two wire formats: pairs [[value, label]] and
    records [{"value": value, "label": label}]. *)
Definition as_pairs (entries : list (string * string)) : pyval :=
  PList (map (fun e => PList [PStr (fst e); PStr (snd e)]) entries).

Definition as_records (entries : list (string * string)) : pyval :=
  PList (map (fun e => PDict [("value", PStr (fst e)); ("label", PStr (snd e))])
             entries).

Lemma py_iter_or_empty (l : list pyval) :
  py_iter (py_or (PList l) (PList [])) = Ok l.
Proof. destruct l; reflexivity. Qed.

Lemma py_in_snoc v vals x :
  py_in v (vals ++ [x]) = py_in v vals || py_eq v x.
Proof.
  unfold py_in. rewrite existsb_app. cbn [existsb]. now rewrite orb_false_r.
Qed.

Lemma vals_from_items_formats acc entries :
  vals_from_items acc
    (map (fun e => PList [PStr (fst e); PStr (snd e)]) entries)
  = vals_from_items acc
      (map (fun e => PDict [("value", PStr (fst e)); ("label", PStr (snd e))])
           entries).
Proof.
  revert acc; induction entries as [|[v l] entries IH]; intros acc; [reflexivity|].
  cbn [map fst snd vals_from_items].
  change (dict_get [("value", PStr v); ("label", PStr l)] "value") with (PStr v).
  destruct (set_add acc (PStr v)); cbn [obind]; [apply IH | reflexivity].
Qed.

Lemma vals_from_items_members acc entries :
  exists vals,
    vals_from_items acc
      (map (fun e => PList [PStr (fst e); PStr (snd e)]) entries) = Ok vals
    /\ forall v, py_in (PStr v) vals = true
                 <-> py_in (PStr v) acc = true \/ In v (map fst entries).
Proof.
  revert acc; induction entries as [|[x l] entries IH]; intros acc.
  - exists acc. split; [reflexivity|]. intros v. cbn. tauto.
  - cbn [map fst snd vals_from_items]. unfold set_add. cbn [hashable obind].
    destruct (py_in (PStr x) acc) eqn:Hx.
    + destruct (IH acc) as (vals & Hv & Hm). exists vals. split; [exact Hv|].
      intros v. rewrite Hm. cbn [In]. split; [tauto|].
      intros [H|[<-|H]]; auto.
    + destruct (IH (acc ++ [PStr x])%list) as (vals & Hv & Hm).
      exists vals. split; [exact Hv|].
      intros v. rewrite Hm, py_in_snoc, orb_true_iff. cbn [In py_eq].
      rewrite String.eqb_eq. split.
      * intros [[H|H]|H]; auto.
      * intros [H|[H|H]]; auto.
Qed.

(** X1. The value set does not depend on the wire format: a choice list
    given as pairs and the same list given as value/label records yield
    the same set, and a value belongs to it exactly when it is the value
    of an entry. *)
Theorem vals_from_choices_either_format (entries : list (string * string)) :
  _vals_from_choices (as_pairs entries) = _vals_from_choices (as_records entries)
  /\ exists vals,
       _vals_from_choices (as_pairs entries) = Ok vals
       /\ forall v, py_in (PStr v) vals = true <-> In v (map fst entries).
Proof.
  unfold _vals_from_choices, as_pairs, as_records.
  rewrite !py_iter_or_empty. cbn [obind]. split.
  - apply vals_from_items_formats.
  - destruct (vals_from_items_members [] entries) as (vals & Hv & Hm).
    exists vals. split; [exact Hv|]. intros v. rewrite Hm.
    split; [intros [H|H]; [discriminate H | exact H] | auto].
Qed.

Lemma missing_values_filter (values existing_vals : list pyval) :
  missing_values values existing_vals
  = if forallb hashable values
    then Ok (filter (fun v => negb (py_in v existing_vals)) values)
    else Raised TypeError.
Proof.
  induction values as [|v values IH]; [reflexivity|].
  cbn [missing_values forallb filter].
  destruct (hashable v); cbn [andb]; [|reflexivity].
  rewrite IH. destruct (forallb hashable values); cbn [obind]; [|reflexivity].
  destruct (py_in v existing_vals); reflexivity.
Qed.

(** X2. The missing values are the requested values that the existing set
    does not hold, in the order of the request and as often as requested
    (a value requested twice and missing is listed twice); a request with
    an unhashable value raises [TypeError]. *)
Theorem missing_values_is_filter (values existing_vals : list pyval) :
  missing_values values existing_vals
  = (if forallb hashable values
     then Ok (filter (fun v => negb (py_in v existing_vals)) values)
     else Raised TypeError)
  /\ (forall c, py_in (PStr c) existing_vals = false ->
      missing_values [PStr c; PStr c] existing_vals = Ok [PStr c; PStr c]).
Proof.
  split; [apply missing_values_filter|].
  intros c Hc. rewrite missing_values_filter. cbn [forallb hashable andb filter].
  now rewrite Hc.
Qed.

Lemma missing_values_is_filter_witness :
  missing_values [PStr "c"; PStr "c"] [PStr "a"; PStr "b"] = Ok [PStr "c"; PStr "c"].
Proof.
  exact (proj2 (missing_values_is_filter [] [PStr "a"; PStr "b"]) "c" eq_refl).
Defined.

(** ** Normalisation of the extra partition *)

Lemma norm_extra_nb_app l1 l2 :
  norm_extra_nb (l1 ++ l2) = (norm_extra_nb l1 ++ norm_extra_nb l2)%list.
Proof.
  induction l1 as [|c l1 IH]; [reflexivity|].
  destruct c; cbn [app norm_extra_nb]; now rewrite IH.
Qed.

Lemma norm_extra_http_app l1 l2 :
  norm_extra_http (l1 ++ l2) = (norm_extra_http l1 ++ norm_extra_http l2)%list.
Proof.
  induction l1 as [|c l1 IH]; [reflexivity|].
  destruct c; cbn [app norm_extra_http]; now rewrite IH.
Qed.

(** An entry that is neither a sequence nor a record. *)
Definition is_scalar (v : pyval) : bool :=
  match v with
  | PNone | PBool _ | PInt _ | PStr _ => true
  | _ => false
  end.

(** X3. Both normalisation loops rewrite a record entry as the pair of its
    value and its label, the label defaulting to the value, and silently
    drop an entry that is neither a sequence nor a record; the entries
    around it are treated as they would be without it. *)
Theorem norm_extra_records_and_scalars (before after : list pyval) :
  (forall d,
     norm_extra_nb (before ++ PDict d :: after)
     = (norm_extra_nb before
        ++ PList [dict_get d "value";
                  match lookup "label" d with
                  | Some l => l
                  | None => dict_get d "value"
                  end]
        :: norm_extra_nb after)%list
     /\ norm_extra_http (before ++ PDict d :: after)
        = (norm_extra_http before
           ++ PList [dict_get d "value";
                     match lookup "label" d with
                     | Some l => l
                     | None => dict_get d "value"
                     end]
           :: norm_extra_http after)%list)
  /\ (forall x,
      is_scalar x = true ->
      norm_extra_nb (before ++ x :: after)
      = (norm_extra_nb before ++ norm_extra_nb after)%list
      /\ norm_extra_http (before ++ x :: after)
         = (norm_extra_http before ++ norm_extra_http after)%list).
Proof.
  split.
  - intros d. rewrite norm_extra_nb_app, norm_extra_http_app. split; reflexivity.
  - intros x Hx. rewrite norm_extra_nb_app, norm_extra_http_app.
    destruct x; try discriminate; split; reflexivity.
Qed.

Lemma norm_extra_records_and_scalars_witness :
  norm_extra_nb [pair_of "a"; PStr "stray"; pair_of "b"] = [pair_of "a"; pair_of "b"]
  /\ norm_extra_http [pair_of "a"; PStr "stray"; pair_of "b"] = [pair_of "a"; pair_of "b"].
Proof.
  exact (proj2 (norm_extra_records_and_scalars [pair_of "a"] [pair_of "b"])
           (PStr "stray") eq_refl).
Defined.

(** ** Interface types: case and range *)

Lemma lower_char_idempotent c : lower_char (lower_char c) = lower_char c.
Proof. destruct c as [[] [] [] [] [] [] [] []]; reflexivity. Qed.

Lemma lower_idempotent s : lower (lower s) = lower s.
Proof.
  induction s as [|c s IH]; [reflexivity|].
  cbn [lower]. now rewrite lower_char_idempotent, IH.
Qed.

Lemma lower_truthy s : truthy (PStr (lower s)) = truthy (PStr s).
Proof. destruct s; reflexivity. Qed.

Lemma first_match_range rules s :
  In (first_match rules s) ("other" :: map snd rules).
Proof.
  induction rules as [|[subs ty] rules IH]; cbn [first_match map snd].
  - now left.
  - destruct (existsb _ subs).
    + right; now left.
    + destruct IH as [H|H]; [now left | right; now right].
Qed.

(** X4. The inferred type depends on the hint only up to the case of its
    letters, and it is always one of the seven type slugs. *)
Theorem iface_type_case_and_range (hint : string) :
  _normalize_iface_type (lower hint) = _normalize_iface_type hint
  /\ (forall other, lower other = lower hint ->
      _normalize_iface_type other = _normalize_iface_type hint)
  /\ In (_normalize_iface_type hint)
        ["other"; "100gbase-x-qsfp28"; "25gbase-x-sfp28"; "40gbase-x-qsfpp";
         "10gbase-x-sfpp"; "1000base-t"; "lag"].
Proof.
  split; [|split].
  - rewrite !normalize_is_first_match. now rewrite lower_idempotent.
  - intros other H. rewrite !normalize_is_first_match. now rewrite H.
  - rewrite normalize_is_first_match. apply (first_match_range IFACE_RULES).
Qed.

Lemma iface_type_case_and_range_witness :
  _normalize_iface_type "ETH0-25G" = _normalize_iface_type "eth0-25g".
Proof.
  exact (proj1 (proj2 (iface_type_case_and_range "eth0-25g")) "ETH0-25G" eq_refl).
Defined.

(** ** Rendering a terminus *)

(** The terminus is a non-empty record whose [device] is a true value that
    is not a record. *)
Definition device_not_a_record (term : pyval) : bool :=
  match term with
  | PDict t =>
      truthy term
      && truthy (dict_get t "device") && negb (is_dict (dict_get t "device"))
  | _ => false
  end.

Lemma device_name_of_record dev :
  exists n,
    obind (method_get (PDict dev) "name") (fun n =>
    or_else n (obind (method_get (PDict dev) "display") (fun d =>
    or_else d (Ok (PStr ""))))) = Ok n.
Proof.
  cbn [method_get obind]. unfold or_else.
  destruct (truthy (dict_get dev "name")); [eauto|].
  destruct (truthy (dict_get dev "display")); eauto.
Qed.

Lemma term_with_device_record B t dev :
  truthy (PDict t) = true ->
  py_or (dict_get t "device") (PDict []) = PDict dev ->
  exists s, _term_to_str B (PDict t) = Ok s.
Proof.
  intros Ht Hdev. unfold _term_to_str. rewrite Ht. cbn [negb]. rewrite Hdev.
  destruct (device_name_of_record dev) as [n Hn]. rewrite Hn. cbn [obind].
  destruct (truthy n); eauto.
Qed.

(** X5. Rendering a terminus raises in one situation only: the terminus
    is a non-empty record whose device field is a true value that is not
    itself a record (a device given by its name, say), and the exception
    is then [AttributeError]. Every other terminus renders to a string;
    an absent one to the dash. *)
Theorem term_to_str_raises_only_on_device B (term : pyval) :
  (if device_not_a_record term
   then _term_to_str B term = Raised AttributeError
   else exists s, _term_to_str B term = Ok s)
  /\ (truthy term = false -> _term_to_str B term = Ok "-").
Proof.
  split.
  - unfold device_not_a_record.
    destruct term as [| | | | | |t|];
      try (unfold _term_to_str; destruct (negb _); eexists; reflexivity).
    destruct (truthy (PDict t)) eqn:Ht; cbn [andb];
      [|unfold _term_to_str; rewrite Ht; eexists; reflexivity].
    destruct (truthy (dict_get t "device")) eqn:Hd; cbn [andb].
    + destruct (is_dict (dict_get t "device")) eqn:Hrec; cbn [negb].
      * destruct (dict_get t "device") as [| | | | | |dev|] eqn:Hdev;
          try discriminate.
        apply (term_with_device_record B t dev Ht).
        rewrite Hdev. unfold py_or. now rewrite Hd.
      * unfold _term_to_str. rewrite Ht. cbn [negb].
        unfold py_or at 1. rewrite Hd.
        destruct (dict_get t "device"); try discriminate; reflexivity.
    + apply (term_with_device_record B t [] Ht).
      unfold py_or. now rewrite Hd.
  - intros H. unfold _term_to_str. now rewrite H.
Qed.

Lemma term_to_str_raises_only_on_device_witness :
  _term_to_str plain_builtins (PDict [("name", PStr "xe-01"); ("device", PStr "TOR-1")])
  = Raised AttributeError
  /\ _term_to_str plain_builtins (PList []) = Ok "-".
Proof.
  split.
  - exact (proj1 (term_to_str_raises_only_on_device plain_builtins
                    (PDict [("name", PStr "xe-01"); ("device", PStr "TOR-1")]))).
  - exact (proj2 (term_to_str_raises_only_on_device plain_builtins (PList []))
             eq_refl).
Defined.

(** ** The trace printer on sequences *)

Lemma print_each_raises line items x e0 :
  In x items -> line x = Raised e0 ->
  exists e, snd (print_each line items) = Raised e.
Proof.
  induction items as [|y items IH]; [intros []|].
  intros Hin Hx. cbn [print_each].
  destruct (line y) as [s|e] eqn:Hy; [|now exists e].
  destruct Hin as [->|Hin]; [congruence|].
  destruct (IH Hin Hx) as [e He].
  destruct (print_each line items) as [o r]. cbn [snd] in *. now exists e.
Qed.

(** X6. The printer is not total on sequences. When the first item is a
    list, an item that has no length (null, a boolean, a number) makes it
    raise; when the first item is a record, an item that is not a record
    makes it raise. The title and the lines of the items before stay
    printed. *)
Theorem trace_printer_raises_on_mixed_sequence B (title : string)
  (first : pyval) (rest : list pyval) (x : pyval) :
  In x rest ->
  (is_list first = true -> py_len x = Raised TypeError ->
   exists e, snd (print_interface_trace_raw B (PList (first :: rest)) title) = Raised e)
  /\ (is_dict first = true -> is_dict x = false ->
      exists e, snd (print_interface_trace_raw B (PList (first :: rest)) title) = Raised e).
Proof.
  intros Hin. split.
  - intros Hf Hx. destruct first; try discriminate.
    unfold print_interface_trace_raw. cbn [snd].
    apply (print_each_raises (hop_line B) _ x TypeError); [now right|].
    unfold hop_line. now rewrite Hx.
  - intros Hf Hx. destruct first; try discriminate.
    unfold print_interface_trace_raw. cbn [snd].
    apply (print_each_raises (seg_line B) _ x AttributeError); [now right|].
    unfold seg_line. destruct x; try reflexivity. discriminate.
Qed.

Lemma trace_printer_raises_on_mixed_sequence_witness :
  exists e,
    snd (print_interface_trace_raw plain_builtins
           (PList [PList [PStr "a"; PNone; PStr "b"]; PNone]) "Trace") = Raised e.
Proof.
  apply (proj1 (trace_printer_raises_on_mixed_sequence plain_builtins "Trace"
                  (PList [PStr "a"; PNone; PStr "b"]) [PNone] PNone
                  (or_introl eq_refl))); reflexivity.
Defined.

(** The text of a name in a flat trace: the dash for the empty name. *)
Definition name_text (s : string) : string :=
  if String.eqb s "" then "-" else s.

Lemma print_each_names B names :
  print_each (flat_line B) (map PStr names)
  = (map (fun s => OutLine (item_text (name_text s))) names, Ok tt).
Proof.
  induction names as [|s names IH]; [reflexivity|].
  cbn [map print_each]. rewrite IH.
  unfold flat_line, _term_to_str, name_text. cbn [truthy].
  destruct (String.eqb s ""); reflexivity.
Qed.

(** X7. A flat sequence of names is rendered one line per name, in order,
    each indented by three spaces and the empty name as a dash; nothing is
    paired, nothing is dumped, and the printer returns. *)
Theorem flat_trace_of_names B (title : string) (names : list string) :
  print_interface_trace_raw B (PList (map PStr names)) title
  = (title_line title :: map (fun s => OutLine (item_text (name_text s))) names,
     Ok tt).
Proof.
  unfold print_interface_trace_raw.
  destruct names as [|s names]; [reflexivity|].
  pose proof (print_each_names B (s :: names)) as H.
  cbn [map] in *. rewrite H. reflexivity.
Qed.

(** ** The roll-up on devices without a wattage *)

(** What a device adds to the roll-up: 0 when it has no custom fields, or
    null ones, or no estimated wattage among them, or a null one; the
    integer it holds otherwise. *)
Inductive contributes : pyval -> Z -> Prop :=
| NoCustomFields attrs :
    lookup "custom_fields" attrs = None -> contributes (PRec attrs) 0
| NullCustomFields attrs :
    lookup "custom_fields" attrs = Some PNone -> contributes (PRec attrs) 0
| NoWatts attrs cf :
    lookup "custom_fields" attrs = Some (PDict cf) ->
    lookup "estimated_watts" cf = None -> contributes (PRec attrs) 0
| NullWatts attrs cf :
    lookup "custom_fields" attrs = Some (PDict cf) ->
    lookup "estimated_watts" cf = Some PNone -> contributes (PRec attrs) 0
| IntWatts attrs cf w :
    lookup "custom_fields" attrs = Some (PDict cf) ->
    lookup "estimated_watts" cf = Some (PInt w) -> contributes (PRec attrs) w.

Lemma device_watts_of_dict B attrs cf :
  lookup "custom_fields" attrs = Some (PDict cf) ->
  device_watts B (PRec attrs)
  = py_int B (py_or (dict_get cf "estimated_watts") (PInt 0)).
Proof.
  intros H. unfold device_watts, getattr_default, dict_get_default. rewrite H.
  destruct cf; reflexivity.
Qed.

Lemma device_watts_contributes B d w :
  contributes d w -> device_watts B d = Ok w.
Proof.
  intros H. destruct H as [attrs H|attrs H|attrs cf H Hw|attrs cf H Hw|attrs cf w H Hw].
  - unfold device_watts, getattr_default, dict_get_default. now rewrite H.
  - unfold device_watts, getattr_default, dict_get_default. now rewrite H.
  - rewrite (device_watts_of_dict B attrs cf H). unfold dict_get. now rewrite Hw.
  - rewrite (device_watts_of_dict B attrs cf H). unfold dict_get. now rewrite Hw.
  - apply device_watts_of_field. now apply HasWatts with (cf := cf).
Qed.

(** X8. A device without the wattage field does not break the roll-up: it
    counts for 0, whether its custom fields are missing, null or lack the
    field, or the field is null; the roll-up is the sum of the wattages
    that are there, and that of an empty rack is 0. *)
Theorem rack_watts_skips_unset B (devices : list pyval) (ws : list Z) :
  Forall2 contributes devices ws ->
  rack_watts B devices = Ok (sum_watts ws)
  /\ rack_watts B [] = Ok 0.
Proof.
  intros H. split; [|reflexivity]. unfold rack_watts.
  replace (sum_watts ws) with (0 + sum_watts ws) by lia.
  generalize 0 as acc. induction H as [|d w devices ws Hd _ IH]; intros acc.
  - cbn. f_equal. lia.
  - cbn [rack_watts_from]. rewrite (device_watts_contributes B d w Hd).
    cbn [obind]. rewrite IH. f_equal. unfold sum_watts. cbn [fold_right]. lia.
Qed.

Lemma rack_watts_skips_unset_witness :
  rack_watts plain_builtins
    [device_with_watts "GPU-SFDP-01" 800;
     PRec [("name", PStr "spare")];
     PRec [("name", PStr "shelf"); ("custom_fields", PDict [("estimated_watts", PNone)])]]
  = Ok 800.
Proof.
  apply (rack_watts_skips_unset plain_builtins _ [800; 0; 0]).
  apply Forall2_cons; [eapply IntWatts; reflexivity|].
  apply Forall2_cons; [apply NoCustomFields; reflexivity|].
  apply Forall2_cons; [eapply NullWatts; reflexivity|].
  apply Forall2_nil.
Defined.

(** ** Ports that count as used *)

(** X9. When every cable attribute can be read, the ports counted as used
    are exactly those that the cabling helpers take to carry a cable, in
    their order; so the used ports are never more than the ports. *)
Theorem cabled_is_has_cable (ifaces used : list termination) :
  cabled ifaces = Ok used ->
  used = filter _has_cable ifaces
  /\ (List.length used <= List.length ifaces)%nat.
Proof.
  intros H.
  assert (Hf : used = filter _has_cable ifaces).
  { revert used H. induction ifaces as [|i ifaces IH]; intros used.
    - intros [= <-]. reflexivity.
    - cbn [cabled filter].
      destruct (getattr_cable i) as [c|e] eqn:Hi; cbn [obind]; [|discriminate].
      assert (Hc : _has_cable i = truthy c) by (unfold _has_cable; now rewrite Hi).
      destruct (cabled ifaces) as [more|e]; cbn [obind]; [|discriminate].
      intros [= <-]. rewrite Hc, <- (IH more eq_refl). reflexivity. }
  split; [exact Hf|]. subst used. apply filter_length_le.
Qed.

Lemma cabled_is_has_cable_witness :
  [cabled_iface 1] = filter _has_cable [cabled_iface 1; free_iface 2].
Proof.
  exact (proj1 (cabled_is_has_cable [cabled_iface 1; free_iface 2]
                  [cabled_iface 1] eq_refl)).
Defined.

Lemma cabled_raises ifaces t e :
  In t ifaces -> term_cable t = Raised e -> e <> AttributeError ->
  exists e', cabled ifaces = Raised e'.
Proof.
  induction ifaces as [|i ifaces IH]; [intros []|].
  intros Hin Ht He. cbn [cabled].
  destruct (getattr_cable i) as [c|e'] eqn:Hi; cbn [obind]; [|now exists e'].
  destruct Hin as [->|Hin].
  - unfold getattr_cable in Hi. rewrite Ht in Hi.
    destruct e; try discriminate. now elim He.
  - destruct (IH Hin Ht He) as [e' He']. rewrite He'. now exists e'.
Qed.

(** X10. The utilization figure is not lenient as the cabling helpers
    are: a cable attribute whose read raises anything but a missing
    attribute makes the computation raise, where [_has_cable] answers
    false. *)
Theorem util_propagates_read_failure (ifaces : list termination)
  (t : termination) (e : exn) :
  In t ifaces -> term_cable t = Raised e -> e <> AttributeError ->
  (exists e', util ifaces = Raised e') /\ _has_cable t = false.
Proof.
  intros Hin Ht He. split.
  - destruct (cabled_raises ifaces t e Hin Ht He) as [e' He'].
    exists e'. unfold util. now rewrite He'.
  - unfold _has_cable, getattr_cable. rewrite Ht. destruct e; reflexivity.
Qed.

Lemma util_propagates_read_failure_witness :
  (exists e', util [free_iface 1; with_cable (free_iface 2) (Raised (RemoteError 503))]
              = Raised e')
  /\ _has_cable (with_cable (free_iface 2) (Raised (RemoteError 503))) = false.
Proof.
  apply (util_propagates_read_failure _ _ (RemoteError 503));
    [right; left; reflexivity | reflexivity | discriminate].
Defined.

(** * The other provisioning helpers *)

(** The collections they work on. *)
Definition TAGS : string := "extras/tags".
Definition DEVICE_ROLES : string := "dcim/device-roles".
Definition MANUFACTURERS : string := "dcim/manufacturers".
Definition DEVICE_TYPES : string := "dcim/device-types".
Definition DEVICES : string := "dcim/devices".
Definition INTERFACES : string := "dcim/interfaces".
Definition POWER_PORTS : string := "dcim/power-ports".
Definition POWER_OUTLETS : string := "dcim/power-outlets".

(** The objects that [ensure_device] takes from the module: the two roles
    (lines 203-204), the site and the rack (lines 207-209). *)
Record placement : Type := {
  ROLE_SERVER : pyval;
  ROLE_NETWORK : pyval;
  site : pyval;
  rack : pyval
}.

(** ["text" in v], for a value [v] of any kind: a substring of a string,
    an item of a sequence, a key of a dict. *)
Definition py_contains (text : string) (v : pyval) : outcome bool :=
  match v with
  | PStr s => Ok (str_in text s)
  | PList l | PTuple l => Ok (py_in (PStr text) l)
  | PDict kv => Ok (existsb (String.eqb text) (map fst kv))
  | PRec _ => obind (py_iter v) (fun items => Ok (py_in (PStr text) items))
  | _ => Raised TypeError
  end.

(** [[t.id for t in tags]] *)
Fixpoint ids_of (objs : list pyval) : outcome (list pyval) :=
  match objs with
  | [] => Ok []
  | o :: rest =>
      obind (getattr o "id") (fun i =>
      obind (ids_of rest) (fun more => Ok (i :: more)))
  end.

Section Provisioning.

Context {N : netbox}.

(** [slugify] of python-slugify, taken as given. *)
Variable slugify : string -> string.

(** Lines 49-53. *)
Definition ensure_tag (name slug_ : string) : M N pyval :=
  t <- get TAGS [("slug", PStr slug_)] ;;
  match t with
  | Some o => ret (PRec o)
  | None => create TAGS (PDict [("name", PStr name); ("slug", PStr slug_)])
  end.

(** Lines 55-59. *)
Definition ensure_device_role (name slug_ : string) : M N pyval :=
  r <- get DEVICE_ROLES [("slug", PStr slug_)] ;;
  match r with
  | Some o => ret (PRec o)
  | None => create DEVICE_ROLES (PDict [("name", PStr name); ("slug", PStr slug_)])
  end.

(** Lines 61-62. *)
Definition ensure_manufacturer (name : string) : M N pyval :=
  get_or_create MANUFACTURERS
    [("name", PStr name); ("slug", PStr (slugify name))].

(** Lines 64-75. *)
Definition ensure_device_type (manufacturer : pyval) (model : string) (u : Z)
  (full_depth : bool) : M N pyval :=
  let slug_ := slugify model in
  dt <- get DEVICE_TYPES [("slug", PStr slug_)] ;;
  match dt with
  | Some o => ret (PRec o)
  | None =>
      m_id <- lift (getattr manufacturer "id") ;;
      create DEVICE_TYPES
        (PDict [("manufacturer", m_id); ("model", PStr model);
                ("slug", PStr slug_); ("u_height", PInt u);
                ("is_full_depth", PBool full_depth)])
  end.

(** Lines 158-161 and 163-166, which differ in the type alone. *)
Definition cf_plain_payload (name type label : string) : dict :=
  [("name", PStr name); ("type", PStr type); ("label", PStr label);
   ("required", PBool false); ("object_types", CF_DEVICE_OBJECT_TYPES)].

Definition ensure_cf_text (name label : string) : M N pyval :=
  cf <- get CUSTOM_FIELDS [("name", PStr name)] ;;
  let payload := cf_plain_payload name "text" label in
  match cf with
  | Some o => ret (PRec o)
  | None => create CUSTOM_FIELDS (PDict payload)
  end.

Definition ensure_cf_int (name label : string) : M N pyval :=
  cf <- get CUSTOM_FIELDS [("name", PStr name)] ;;
  let payload := cf_plain_payload name "integer" label in
  match cf with
  | Some o => ret (PRec o)
  | None => create CUSTOM_FIELDS (PDict payload)
  end.

(** Lines 224-225: the model label of a device type, and whether it makes
    the device a network device. *)
Definition model_label (dt : pyval) : pyval :=
  py_or (getattr_default dt "model" (PStr "")) (getattr_default dt "display" (PStr "")).

Definition is_network_model (model : pyval) : outcome bool :=
  obind (py_contains "Switch" model) (fun sw =>
  if sw then Ok true else py_contains "PDU" model).

(** Lines 220-230. *)
Definition ensure_device (env : placement) (name : string) (dt : pyval) (ru : Z)
  (tags : list pyval) (cf : pyval) : M N pyval :=
  dev <- get DEVICES [("name", PStr name)] ;;
  match dev with
  | Some o => ret (PRec o)
  | None =>
      let model := model_label dt in
      network <- lift (is_network_model model) ;;
      role_id <- lift (getattr (if network : bool then ROLE_NETWORK env
                                else ROLE_SERVER env) "id") ;;
      dt_id <- lift (getattr dt "id") ;;
      site_id <- lift (getattr (site env) "id") ;;
      rack_id <- lift (getattr (rack env) "id") ;;
      tag_ids <- lift (ids_of tags) ;;
      create DEVICES
        (PDict [("name", PStr name); ("device_type", dt_id); ("role", role_id);
                ("site", site_id); ("rack", rack_id); ("position", PInt ru);
                ("face", PStr "front"); ("tags", PList tag_ids);
                ("custom_fields", cf)])
  end.

(** [iface_type_hint or name] (line 259); the hint is [None] or a string. *)
Definition hint_or_name (iface_type_hint : option string) (name : string) : string :=
  match iface_type_hint with
  | Some h => if truthy (PStr h) then h else name
  | None => name
  end.

(** Lines 255-260. *)
Definition ensure_iface (device : pyval) (name : string)
  (iface_type_hint : option string) (mgmt : bool) : M N pyval :=
  d_id <- lift (getattr device "id") ;;
  intf <- get INTERFACES [("device_id", d_id); ("name", PStr name)] ;;
  match intf with
  | Some o => ret (PRec o)
  | None =>
      let nb_type := _normalize_iface_type (hint_or_name iface_type_hint name) in
      d_id' <- lift (getattr device "id") ;;
      create INTERFACES
        (PDict [("device", d_id'); ("name", PStr name); ("type", PStr nb_type);
                ("mgmt_only", PBool mgmt)])
  end.

(** Lines 262-266. *)
Definition ensure_power_port (device : pyval) (name : string)
  (maximum_draw allocated_draw : Z) : M N pyval :=
  d_id <- lift (getattr device "id") ;;
  pp <- get POWER_PORTS [("device_id", d_id); ("name", PStr name)] ;;
  match pp with
  | Some o => ret (PRec o)
  | None =>
      d_id' <- lift (getattr device "id") ;;
      create POWER_PORTS
        (PDict [("device", d_id'); ("name", PStr name);
                ("maximum_draw", PInt maximum_draw);
                ("allocated_draw", PInt allocated_draw)])
  end.

(** Lines 268-272. *)
Definition ensure_power_outlet (device : pyval) (name : string) : M N pyval :=
  d_id <- lift (getattr device "id") ;;
  po <- get POWER_OUTLETS [("device_id", d_id); ("name", PStr name)] ;;
  match po with
  | Some o => ret (PRec o)
  | None =>
      d_id' <- lift (getattr device "id") ;;
      create POWER_OUTLETS (PDict [("device", d_id'); ("name", PStr name)])
  end.

End Provisioning.

(** ** Look up, else create *)

(** The shape that the helpers share: one lookup, and a creation when the
    lookup found nothing. *)
Section EnsureBy.

Context {N : netbox}.
Variables (endpoint : string) (filters : dict).

Definition ensure_by (data : pyval) : M N pyval :=
  obj <- get endpoint filters ;;
  match obj with
  | Some o => ret (PRec o)
  | None => create endpoint data
  end.

(** The service in [w] finds under the filter what it creates from [data]. *)
Definition found_after_create (data : pyval) (w : world N) : Prop :=
  forall o s,
    nb_create N endpoint data (remote w) = (Ok o, s) ->
    exists o',
      nb_get N endpoint filters s = Ok (Some o')
      /\ lookup "id" o' = lookup "id" o.

Lemma ensure_by_existing data (w : world N) o :
  nb_get N endpoint filters (remote w) = Ok (Some o) ->
  ensure_by data w = (Ok (PRec o), logged w (NbGet endpoint filters) (remote w)).
Proof. intros H. unfold ensure_by, bind, get. now rewrite H. Qed.

Lemma ensure_by_absent data (w : world N) :
  nb_get N endpoint filters (remote w) = Ok None ->
  ensure_by data w
  = create endpoint data (logged w (NbGet endpoint filters) (remote w)).
Proof. intros H. unfold ensure_by, bind, get. now rewrite H. Qed.

(** After a successful run the object is there to be found, and at most
    one creation was made. *)
Lemma ensure_by_leaves_found data (w : world N) o1 w1 :
  found_after_create data w ->
  ensure_by data w = (Ok o1, w1) ->
  exists o',
    nb_get N endpoint filters (remote w1) = Ok (Some o')
    /\ lookup "id" o' = identity o1
    /\ (creates (calls w1) <= creates (calls w) + 1)%nat.
Proof.
  intros Hlaw. unfold ensure_by, bind, get.
  destruct (nb_get N endpoint filters (remote w)) as [[o|]|e] eqn:Hget.
  - unfold ret. intros [= <- <-]. exists o. cbn [remote calls logged identity].
    rewrite creates_app. cbn [is_create]. repeat split; [exact Hget | lia].
  - unfold create. cbn [remote logged].
    destruct (nb_create N endpoint data (remote w)) as [[o|e] s] eqn:Hc;
      cbn [obind]; [|discriminate].
    intros [= <- <-]. destruct (Hlaw o s Hc) as (o' & Hget' & Hid).
    exists o'. cbn [remote calls logged identity].
    rewrite !creates_app. cbn [is_create]. repeat split; [exact Hget' | exact Hid | lia].
  - discriminate.
Qed.

End EnsureBy.

Lemma get_or_create_is_ensure_by {N : netbox} endpoint attrs :
  @get_or_create N endpoint attrs
  = ensure_by endpoint (lookup_key attrs) (PDict attrs).
Proof. reflexivity. Qed.

(** X11. Tags and device roles are looked up by slug alone, and each is
    created at most once: where the service finds under the slug what it
    has just created, a second call with the same slug returns the object
    of the first, whatever name it is given, and creates nothing. *)
Theorem ensure_tag_and_role_by_slug (N : netbox) (name name' slug_ : string)
  (w : world N) :
  (found_after_create TAGS [("slug", PStr slug_)]
     (PDict [("name", PStr name); ("slug", PStr slug_)]) w ->
   forall o1 w1,
     ensure_tag name slug_ w = (Ok o1, w1) ->
     exists o2 w2,
       ensure_tag name' slug_ w1 = (Ok o2, w2)
       /\ identity o2 = identity o1
       /\ creates (calls w2) = creates (calls w1)
       /\ (creates (calls w1) <= creates (calls w) + 1)%nat)
  /\ (found_after_create DEVICE_ROLES [("slug", PStr slug_)]
        (PDict [("name", PStr name); ("slug", PStr slug_)]) w ->
      forall o1 w1,
        ensure_device_role name slug_ w = (Ok o1, w1) ->
        exists o2 w2,
          ensure_device_role name' slug_ w1 = (Ok o2, w2)
          /\ identity o2 = identity o1
          /\ creates (calls w2) = creates (calls w1)
          /\ (creates (calls w1) <= creates (calls w) + 1)%nat).
Proof.
  split; intros Hlaw o1 w1 H.
  - destruct (ensure_by_leaves_found TAGS _ _ w o1 w1 Hlaw H) as (o' & Hget & Hid & Hn).
    eexists (PRec o'), _. split.
    + exact (ensure_by_existing TAGS _
               (PDict [("name", PStr name'); ("slug", PStr slug_)]) w1 o' Hget).
    + cbn [calls logged identity]. rewrite creates_app. cbn [is_create].
      repeat split; [exact Hid | lia | exact Hn].
  - destruct (ensure_by_leaves_found DEVICE_ROLES _ _ w o1 w1 Hlaw H)
      as (o' & Hget & Hid & Hn).
    eexists (PRec o'), _. split.
    + exact (ensure_by_existing DEVICE_ROLES _
               (PDict [("name", PStr name'); ("slug", PStr slug_)]) w1 o' Hget).
    + cbn [calls logged identity]. rewrite creates_app. cbn [is_create].
      repeat split; [exact Hid | lia | exact Hn].
Qed.

Lemma ensure_tag_and_role_by_slug_witness :
  exists o2 w2,
    ensure_tag "GPU node" "gpu-node"
      (snd (ensure_tag "gpu-node" "gpu-node" (Mem.start true [])))
    = (Ok o2, w2)
    /\ identity o2 = Some (PInt 1)
    /\ creates (calls w2) = 1%nat.
Proof.
  assert (Hlaw : found_after_create TAGS [("slug", PStr "gpu-node")]
                   (PDict [("name", PStr "gpu-node"); ("slug", PStr "gpu-node")])
                   (Mem.start true [])).
  { intros o s [= <- <-]. eexists. split; reflexivity. }
  destruct (proj1 (ensure_tag_and_role_by_slug (Mem.service true)
                     "gpu-node" "GPU node" "gpu-node" (Mem.start true []))
              Hlaw _ _ eq_refl) as (o2 & w2 & H & Hid & Hn & _).
  exists o2, w2. repeat split; assumption.
Defined.

(** X12. A text field and an integer field of one name are one field to
    the helpers: an existing field is returned by either helper as it is,
    whatever its type, after the lookup alone; so once [ensure_cf_text]
    has run, [ensure_cf_int] of the same name returns the text field and
    creates no integer field. *)
Theorem cf_text_then_int_keeps_text (N : netbox) (name label label' : string)
  (w : world N) :
  (forall cf,
     nb_get N CUSTOM_FIELDS [("name", PStr name)] (remote w) = Ok (Some cf) ->
     ensure_cf_text name label w
     = (Ok (PRec cf), logged w (NbGet CUSTOM_FIELDS [("name", PStr name)]) (remote w))
     /\ ensure_cf_int name label w = ensure_cf_text name label w)
  /\ (found_after_create CUSTOM_FIELDS [("name", PStr name)]
        (PDict (cf_plain_payload name "text" label)) w ->
      forall o1 w1,
        ensure_cf_text name label w = (Ok o1, w1) ->
        exists o2 w2,
          ensure_cf_int name label' w1 = (Ok o2, w2)
          /\ identity o2 = identity o1
          /\ creates (calls w2) = creates (calls w1)
          /\ updates (calls w2) = updates (calls w1)).
Proof.
  split.
  - intros cf Hget.
    pose proof (ensure_by_existing CUSTOM_FIELDS [("name", PStr name)]
                  (PDict (cf_plain_payload name "text" label)) w cf Hget) as Ht.
    pose proof (ensure_by_existing CUSTOM_FIELDS [("name", PStr name)]
                  (PDict (cf_plain_payload name "integer" label)) w cf Hget) as Hi.
    split; [exact Ht|]. exact (eq_trans Hi (eq_sym Ht)).
  - intros Hlaw o1 w1 H.
    destruct (ensure_by_leaves_found CUSTOM_FIELDS _ _ w o1 w1 Hlaw H)
      as (o' & Hget & Hid & _).
    eexists (PRec o'), _. split.
    + exact (ensure_by_existing CUSTOM_FIELDS _
               (PDict (cf_plain_payload name "integer" label')) w1 o' Hget).
    + cbn [calls logged identity]. rewrite creates_app, updates_app.
      cbn [is_create is_update]. repeat split; [exact Hid | lia | lia].
Qed.

Lemma cf_text_then_int_keeps_text_witness :
  exists o2 w2,
    ensure_cf_int "estimated_watts" "Estimated Watts"
      (snd (ensure_cf_text "estimated_watts" "Watts" (Mem.start true [])))
    = (Ok o2, w2)
    /\ getattr o2 "type" = Ok (PStr "text")
    /\ creates (calls w2) = 1%nat.
Proof.
  assert (Hlaw : found_after_create CUSTOM_FIELDS [("name", PStr "estimated_watts")]
                   (PDict (cf_plain_payload "estimated_watts" "text" "Watts"))
                   (Mem.start true [])).
  { intros o s [= <- <-]. eexists. split; reflexivity. }
  destruct (proj2 (cf_text_then_int_keeps_text (Mem.service true)
                     "estimated_watts" "Watts" "Estimated Watts" (Mem.start true []))
              Hlaw _ _ eq_refl) as (o2 & w2 & H & _).
  exists o2, w2. split; [exact H|].
  cbv in H. injection H as <- <-. split; reflexivity.
Defined.

(** ** Devices *)

(** The creation that [ensure_device] asks for. *)
Definition device_data (name : string) (dt_id role_id site_id rack_id : pyval)
  (ru : Z) (tag_ids : list pyval) (cf : pyval) : pyval :=
  PDict [("name", PStr name); ("device_type", dt_id); ("role", role_id);
         ("site", site_id); ("rack", rack_id); ("position", PInt ru);
         ("face", PStr "front"); ("tags", PList tag_ids); ("custom_fields", cf)].

(** X13. A device that exists is returned after the lookup alone: its
    type, tags and custom fields are not looked at. A device that does not
    exist is created with the network role when the model label of its
    type (the model, else the display name) contains [Switch] or [PDU],
    in this very case of letters, and with the server role otherwise. *)
Theorem ensure_device_role_from_model (N : netbox) (env : placement)
  (name : string) (dt : pyval) (ru : Z) (tags : list pyval) (cf : pyval)
  (w : world N) :
  (forall o,
     nb_get N DEVICES [("name", PStr name)] (remote w) = Ok (Some o) ->
     ensure_device env name dt ru tags cf w
     = (Ok (PRec o), logged w (NbGet DEVICES [("name", PStr name)]) (remote w)))
  /\ (forall model net_id srv_id dt_id site_id rack_id tag_ids,
      nb_get N DEVICES [("name", PStr name)] (remote w) = Ok None ->
      model_label dt = PStr model ->
      getattr (ROLE_NETWORK env) "id" = Ok net_id ->
      getattr (ROLE_SERVER env) "id" = Ok srv_id ->
      getattr dt "id" = Ok dt_id ->
      getattr (site env) "id" = Ok site_id ->
      getattr (rack env) "id" = Ok rack_id ->
      ids_of tags = Ok tag_ids ->
      calls (snd (ensure_device env name dt ru tags cf w))
      = (calls w
         ++ [NbGet DEVICES [("name", PStr name)];
             NbCreate DEVICES
               (device_data name dt_id
                  (if str_in "Switch" model || str_in "PDU" model
                   then net_id else srv_id)
                  site_id rack_id ru tag_ids cf)])%list).
Proof.
  split.
  - intros o Hget. unfold ensure_device, bind, get. now rewrite Hget.
  - intros model net_id srv_id dt_id site_id rack_id tag_ids
      Hget Hmodel Hnet Hsrv Hdt Hsite Hrack Htags.
    unfold ensure_device, bind, get. rewrite Hget.
    unfold lift. rewrite Hmodel. unfold is_network_model.
    cbn [py_contains obind].
    assert (Hrole :
      getattr (if (if str_in "Switch" model then true else str_in "PDU" model)
               then ROLE_NETWORK env else ROLE_SERVER env) "id"
      = Ok (if str_in "Switch" model || str_in "PDU" model
            then net_id else srv_id)).
    { destruct (str_in "Switch" model); cbn [orb]; [exact Hnet|].
      destruct (str_in "PDU" model); [exact Hnet | exact Hsrv]. }
    destruct (str_in "Switch" model) eqn:Hsw; cbn [obind orb] in *;
      rewrite Hrole, Hdt, Hsite, Hrack, Htags; unfold create; cbn [remote logged];
      destruct (nb_create N DEVICES _ (remote w)) as [r s];
      cbn [snd calls logged]; now rewrite <- app_assoc.
Qed.

(** The type of the top-of-rack switch, and a type whose label has the
    word in small letters. *)
Definition demo_placement : placement :=
  {| ROLE_SERVER := PRec [("id", PInt 1)]; ROLE_NETWORK := PRec [("id", PInt 2)];
     site := PRec [("id", PInt 3)]; rack := PRec [("id", PInt 4)] |}.

Lemma ensure_device_role_from_model_witness :
  calls (snd (ensure_device demo_placement "TOR-SFDP-01"
                (PRec [("id", PInt 5); ("model", PStr "ToR Switch 32x100G")])
                42 [PRec [("id", PInt 6)]] (PDict []) (Mem.start true [])))
  = [NbGet DEVICES [("name", PStr "TOR-SFDP-01")];
     NbCreate DEVICES
       (device_data "TOR-SFDP-01" (PInt 5) (PInt 2) (PInt 3) (PInt 4) 42
          [PInt 6] (PDict []))]
  /\ calls (snd (ensure_device demo_placement "LAB-01"
                   (PRec [("id", PInt 5); ("display", PStr "lab switch")])
                   42 [] (PDict []) (Mem.start true [])))
     = [NbGet DEVICES [("name", PStr "LAB-01")];
        NbCreate DEVICES
          (device_data "LAB-01" (PInt 5) (PInt 1) (PInt 3) (PInt 4) 42 [] (PDict []))].
Proof.
  split.
  - exact (proj2 (ensure_device_role_from_model (Mem.service true) demo_placement
                    "TOR-SFDP-01"
                    (PRec [("id", PInt 5); ("model", PStr "ToR Switch 32x100G")])
                    42 [PRec [("id", PInt 6)]] (PDict []) (Mem.start true []))
             "ToR Switch 32x100G" (PInt 2) (PInt 1) (PInt 5) (PInt 3) (PInt 4)
             [PInt 6] eq_refl eq_refl eq_refl eq_refl eq_refl eq_refl eq_refl eq_refl).
  - exact (proj2 (ensure_device_role_from_model (Mem.service true) demo_placement
                    "LAB-01" (PRec [("id", PInt 5); ("display", PStr "lab switch")])
                    42 [] (PDict []) (Mem.start true []))
             "lab switch" (PInt 2) (PInt 1) (PInt 5) (PInt 3) (PInt 4)
             [] eq_refl eq_refl eq_refl eq_refl eq_refl eq_refl eq_refl eq_refl).
Defined.

(** ** Interfaces *)

(** X14. An interface is looked up by device and name. When it is absent
    it is created with the type inferred from the hint, and from the name
    of the interface when no hint or an empty one is given; a device
    without an identity makes the helper raise before any call. *)
Theorem ensure_iface_type_from_hint_or_name (N : netbox) (device : pyval)
  (name : string) (hint : option string) (mgmt : bool) (w : world N) :
  (forall d_id,
     getattr device "id" = Ok d_id ->
     nb_get N INTERFACES [("device_id", d_id); ("name", PStr name)] (remote w)
     = Ok None ->
     calls (snd (ensure_iface device name hint mgmt w))
     = (calls w
        ++ [NbGet INTERFACES [("device_id", d_id); ("name", PStr name)];
            NbCreate INTERFACES
              (PDict [("device", d_id); ("name", PStr name);
                      ("type",
                       PStr (_normalize_iface_type
                               (match hint with
                                | Some h => if String.eqb h "" then name else h
                                | None => name
                                end)));
                      ("mgmt_only", PBool mgmt)])])%list)
  /\ (forall e,
      getattr device "id" = Raised e ->
      ensure_iface device name hint mgmt w = (Raised e, w)).
Proof.
  split.
  - intros d_id Hid Hget. unfold ensure_iface, bind, lift, get.
    rewrite Hid, Hget. unfold create. cbn [remote logged].
    destruct (nb_create N INTERFACES _ (remote w)) as [r s].
    cbn [snd calls logged]. rewrite <- app_assoc.
    unfold hint_or_name. destruct hint as [h|]; [|reflexivity].
    cbn [truthy]. destruct (String.eqb h ""); reflexivity.
  - intros e He. unfold ensure_iface, bind, lift. now rewrite He.
Qed.

Lemma ensure_iface_type_from_hint_or_name_witness :
  calls (snd (ensure_iface (PRec [("id", PInt 5)]) "eth0-25G" None false
                (Mem.start true [])))
  = [NbGet INTERFACES [("device_id", PInt 5); ("name", PStr "eth0-25G")];
     NbCreate INTERFACES
       (PDict [("device", PInt 5); ("name", PStr "eth0-25G");
               ("type", PStr "25gbase-x-sfp28"); ("mgmt_only", PBool false)])]
  /\ ensure_iface (PDict [("id", PInt 5)]) "eth0" None false (Mem.start true [])
     = (Raised AttributeError, Mem.start true []).
Proof.
  split.
  - exact (proj1 (ensure_iface_type_from_hint_or_name (Mem.service true)
                    (PRec [("id", PInt 5)]) "eth0-25G" None false (Mem.start true []))
             (PInt 5) eq_refl eq_refl).
  - exact (proj2 (ensure_iface_type_from_hint_or_name (Mem.service true)
                    (PDict [("id", PInt 5)]) "eth0" None false (Mem.start true []))
             AttributeError eq_refl).
Defined.

(** ** The lookup key of get_or_create *)

(** [attrs] holds a true value under [k]. *)
Definition has_true (k : string) (attrs : dict) : bool :=
  match lookup k attrs with
  | Some v => truthy v
  | None => false
  end.

Lemma first_key_name_slug attrs :
  first_key ["name"; "slug"] attrs
  = if has_true "name" attrs then Some ("name", dict_get attrs "name")
    else if has_true "slug" attrs then Some ("slug", dict_get attrs "slug")
    else None.
Proof.
  unfold has_true, dict_get. cbn [first_key].
  destruct (lookup "name" attrs) as [v|]; [destruct (truthy v); [reflexivity|]|];
    (destruct (lookup "slug" attrs) as [s|]; [destruct (truthy s)|]; reflexivity).
Qed.

(** X15. get_or_create always begins with one lookup. The lookup is by
    name when a true name is given, the slug then playing no part; by slug
    when there is no true name; and it has no filter at all when neither
    is given, so that the attributes do not select anything. A
    manufacturer of a non-empty name is thus looked up by name and, when
    absent, created with the slug of its name. *)
Theorem get_or_create_lookup_filter (N : netbox) (slugify : string -> string)
  (endpoint : string) (attrs : dict) (name : string) (w : world N) :
  (exists rest,
     calls (snd (get_or_create endpoint attrs w))
     = (calls w ++ NbGet endpoint (lookup_key attrs) :: rest)%list)
  /\ lookup_key attrs
     = (if has_true "name" attrs then [("name", dict_get attrs "name")]
        else if has_true "slug" attrs then [("slug", dict_get attrs "slug")]
        else [])
  /\ (name <> "" ->
      nb_get N MANUFACTURERS [("name", PStr name)] (remote w) = Ok None ->
      calls (snd (ensure_manufacturer slugify name w))
      = (calls w
         ++ [NbGet MANUFACTURERS [("name", PStr name)];
             NbCreate MANUFACTURERS
               (PDict [("name", PStr name); ("slug", PStr (slugify name))])])%list).
Proof.
  split; [|split].
  - unfold get_or_create, bind, get.
    destruct (nb_get N endpoint (lookup_key attrs) (remote w)) as [[o|]|e].
    + exists []. reflexivity.
    + unfold create. cbn [remote logged].
      destruct (nb_create N endpoint (PDict attrs) (remote w)) as [r s].
      eexists. cbn [snd calls logged]. now rewrite <- app_assoc.
    + exists []. reflexivity.
  - unfold lookup_key. rewrite first_key_name_slug.
    destruct (has_true "name" attrs); [reflexivity|].
    destruct (has_true "slug" attrs); reflexivity.
  - intros Hname Hget. unfold ensure_manufacturer.
    assert (Hkey : lookup_key [("name", PStr name); ("slug", PStr (slugify name))]
                   = [("name", PStr name)]).
    { unfold lookup_key. cbn [first_key lookup String.eqb Ascii.eqb Bool.eqb truthy].
      destruct name; [now elim Hname | reflexivity]. }
    unfold get_or_create, bind, get. rewrite Hkey, Hget.
    unfold create. cbn [remote logged].
    destruct (nb_create N MANUFACTURERS _ (remote w)) as [r s].
    cbn [snd calls logged]. now rewrite <- app_assoc.
Qed.

Lemma get_or_create_lookup_filter_witness :
  calls (snd (ensure_manufacturer (fun s => lower s) "Generic" (Mem.start true [])))
  = [NbGet MANUFACTURERS [("name", PStr "Generic")];
     NbCreate MANUFACTURERS (PDict [("name", PStr "Generic"); ("slug", PStr "generic")])].
Proof.
  apply (proj2 (proj2 (get_or_create_lookup_filter (Mem.service true)
                         (fun s => lower s) "" [] "Generic" (Mem.start true []))));
    [discriminate | reflexivity].
Defined.

(** ** Cabling two free terminations *)

(** X16. When neither termination reports a cable (its cable attribute is
    null, absent or cannot be read), connecting them makes exactly one
    call: the creation of a cable between the two identities, typed as
    interfaces by [cable_ifaces] and as power port and power outlet by
    [cable_power]; a failure of the creation is the failure of the
    helper. *)
Theorem connect_creates_one_cable (N : netbox) (a b : termination) (w : world N) :
  _has_cable a = false -> _has_cable b = false ->
  calls (snd (cable_ifaces a b w))
  = (calls w ++ [NbCreate CABLES
                   (cable_payload "dcim.interface" a "dcim.interface" b)])%list
  /\ calls (snd (cable_power a b w))
     = (calls w ++ [NbCreate CABLES
                      (cable_payload "dcim.powerport" a "dcim.poweroutlet" b)])%list
  /\ (forall e s,
      nb_create N CABLES (cable_payload "dcim.interface" a "dcim.interface" b)
        (remote w) = (Raised e, s) ->
      fst (cable_ifaces a b w) = Raised e).
Proof.
  intros Ha Hb. unfold cable_ifaces, cable_power. rewrite Ha, Hb. cbn [orb].
  unfold bind, create. cbn [remote logged]. split; [|split].
  - destruct (nb_create N CABLES _ (remote w)) as [[o|e] s]; reflexivity.
  - destruct (nb_create N CABLES _ (remote w)) as [[o|e] s]; reflexivity.
  - intros e s H. rewrite H. reflexivity.
Qed.

Lemma connect_creates_one_cable_witness :
  calls (snd (cable_ifaces (free_iface 1)
                (with_cable (free_iface 2) (Raised (RemoteError 503)))
                (Mem.start true [])))
  = [NbCreate CABLES
       (PDict [("a_terminations",
                PList [PDict [("object_type", PStr "dcim.interface");
                              ("object_id", PInt 1)]]);
               ("b_terminations",
                PList [PDict [("object_type", PStr "dcim.interface");
                              ("object_id", PInt 2)]])])].
Proof.
  exact (proj1 (connect_creates_one_cable (Mem.service true) (free_iface 1)
                  (with_cable (free_iface 2) (Raised (RemoteError 503)))
                  (Mem.start true []) eq_refl eq_refl)).
Defined.

(** ** The other paths of ensure_choice_set *)

(** The data of a new set: the name and the extra partition, nothing of
    the fixed partition. *)
Definition new_set_data (name : string) (values : list pyval) : pyval :=
  PDict [("name", PStr name); ("extra_choices", PList (pairs_of values))].

(** X17. When no set has the name, the set is created with the requested
    values as pairs (v,v), in the order of the request, in the extra
    partition, and with no fixed partition; the values are not inspected,
    so the creation is asked for whatever they are. This holds on both
    transports. *)
Theorem choice_set_created_from_values (N : netbox) (w : world N)
  (name : string) (values : list pyval) :
  (has_choice_sets N = true ->
   nb_get N CHOICE_SETS (name_filter name) (remote w) = Ok None ->
   calls (snd (ensure_choice_set name values w))
   = (calls w ++ [NbGet CHOICE_SETS (name_filter name);
                  NbCreate CHOICE_SETS (new_set_data name values)])%list)
  /\ (has_choice_sets N = false ->
      forall data,
        http_get N CHOICE_SETS (raw_params name) (remote w) = Ok data ->
        raw_absent data ->
        calls (snd (ensure_choice_set name values w))
        = (calls w ++ [HttpGet CHOICE_SETS (raw_params name);
                       HttpPost CHOICE_SETS (new_set_data name values)])%list).
Proof.
  split.
  - intros Hcs Hget. unfold ensure_choice_set. rewrite Hcs.
    unfold ensure_choice_set_nb, bind, get. fold (name_filter name).
    rewrite Hget. unfold create. cbn [remote logged].
    destruct (nb_create N CHOICE_SETS _ (remote w)) as [r s].
    cbn [snd calls logged]. now rewrite <- app_assoc.
  - intros Hcs data Hget (count & Hcount & Hgt). unfold ensure_choice_set.
    rewrite Hcs. unfold ensure_choice_set_http, bind, session_get.
    fold (raw_params name). rewrite Hget. unfold lift. rewrite Hcount, Hgt.
    unfold session_post. cbn [remote logged].
    destruct (http_post N CHOICE_SETS _ (remote w)) as [r s].
    cbn [snd calls logged]. now rewrite <- app_assoc.
Qed.

Lemma choice_set_created_from_values_witness :
  calls (snd (ensure_choice_set "hpc_role" [PStr "cpu"; PStr "gpu"]
                (Mem.start true [])))
  = [NbGet CHOICE_SETS (name_filter "hpc_role");
     NbCreate CHOICE_SETS
       (PDict [("name", PStr "hpc_role");
               ("extra_choices", PList [pair_of "cpu"; pair_of "gpu"])])]
  /\ calls (snd (ensure_choice_set "hpc_role" [PStr "cpu"; PStr "gpu"]
                   (Mem.start false [])))
     = [HttpGet CHOICE_SETS (raw_params "hpc_role");
        HttpPost CHOICE_SETS
          (PDict [("name", PStr "hpc_role");
                  ("extra_choices", PList [pair_of "cpu"; pair_of "gpu"])])].
Proof.
  split.
  - exact (proj1 (choice_set_created_from_values (Mem.service true)
                    (Mem.start true []) "hpc_role" [PStr "cpu"; PStr "gpu"])
             eq_refl eq_refl).
  - apply (proj2 (choice_set_created_from_values (Mem.service false)
                    (Mem.start false []) "hpc_role" [PStr "cpu"; PStr "gpu"])
             eq_refl (PDict [("count", PInt 0); ("results", PList [])]) eq_refl).
    exists (PInt 0). split; reflexivity.
Defined.

Lemma merge_nothing_missing cs values vals :
  _vals_from_choices (dict_get_default cs "choices" (PList [])) = Ok vals ->
  forallb hashable values = true ->
  forallb (fun v => py_in v vals) values = true ->
  merge_nb (PRec cs) values = Ok None /\ merge_http (PDict cs) values = Ok None.
Proof.
  intros Hvals Hhash Hall.
  assert (Hmiss : missing_values values vals = Ok []).
  { rewrite missing_values_filter, Hhash. f_equal.
    clear Hhash. induction values as [|v values IH]; [reflexivity|].
    cbn [forallb filter] in *. apply andb_true_iff in Hall as [Hv Hrest].
    rewrite Hv. cbn [negb]. exact (IH Hrest). }
  unfold merge_nb, merge_http.
  cbn [getattr_default method_get_default obind].
  rewrite Hvals. cbn [obind]. rewrite Hmiss. split; reflexivity.
Qed.

(** X18. When every requested value is among the existing choices,
    nothing is written: the set is returned as the lookup gave it and the
    lookup is the only call, on both transports. Running the merge again
    after it has been served is therefore a no-op. *)
Theorem choice_set_nothing_missing_is_noop (N : netbox) (w : world N)
  (name : string) (values : list pyval) (cs : dict) (vals : list pyval) :
  _vals_from_choices (dict_get_default cs "choices" (PList [])) = Ok vals ->
  forallb hashable values = true ->
  forallb (fun v => py_in v vals) values = true ->
  (has_choice_sets N = true ->
   nb_get N CHOICE_SETS (name_filter name) (remote w) = Ok (Some cs) ->
   ensure_choice_set name values w
   = (Ok (PRec cs), logged w (NbGet CHOICE_SETS (name_filter name)) (remote w)))
  /\ (has_choice_sets N = false ->
      forall data,
        http_get N CHOICE_SETS (raw_params name) (remote w) = Ok data ->
        raw_found data (PDict cs) ->
        ensure_choice_set name values w
        = (Ok (PDict cs),
           logged w (HttpGet CHOICE_SETS (raw_params name)) (remote w))).
Proof.
  intros Hvals Hhash Hall.
  destruct (merge_nothing_missing cs values vals Hvals Hhash Hall) as [Hnb Hhttp].
  split.
  - intros Hcs Hget. unfold ensure_choice_set. rewrite Hcs.
    now apply nb_run_keeps.
  - intros Hcs data Hget Hfound. unfold ensure_choice_set. rewrite Hcs.
    now apply http_run_keeps with (data := data).
Qed.

(** The set of the claim once [c] has been appended, as the service holds
    it afterwards. *)
Definition set_a_b_c : dict :=
  [("id", PInt 7); ("name", PStr "hpc_role");
   ("extra_choices", PList [pair_of "a"; pair_of "b"; pair_of "c"]);
   ("choices", PList [pair_of "a"; pair_of "b"; pair_of "c"])].

Lemma choice_set_nothing_missing_is_noop_witness :
  ensure_choice_set "hpc_role" [PStr "b"; PStr "c"]
    (Mem.start true [(CHOICE_SETS, [set_a_b_c])])
  = (Ok (PRec set_a_b_c),
     logged (Mem.start true [(CHOICE_SETS, [set_a_b_c])])
       (NbGet CHOICE_SETS (name_filter "hpc_role"))
       ([(CHOICE_SETS, [set_a_b_c])] : state (Mem.service true))).
Proof.
  exact (proj1 (choice_set_nothing_missing_is_noop (Mem.service true)
                  (Mem.start true [(CHOICE_SETS, [set_a_b_c])])
                  "hpc_role" [PStr "b"; PStr "c"] set_a_b_c
                  [PStr "a"; PStr "b"; PStr "c"] eq_refl eq_refl eq_refl)
           eq_refl eq_refl).
Defined.

(** What follows the lookup in a run of the merge: nothing, or one write
    of an extra partition, or one creation. *)
Definition nb_tail (name : string) (values : list pyval) (rest : list call) : Prop :=
  rest = []
  \/ (exists id extra, rest = [update_extra id extra])
  \/ rest = [NbCreate CHOICE_SETS (new_set_data name values)].

Definition http_tail (name : string) (values : list pyval) (rest : list call) : Prop :=
  rest = []
  \/ (exists id extra, rest = [patch_extra id extra])
  \/ rest = [HttpPost CHOICE_SETS (new_set_data name values)].

Ltac log_tail :=
  cbn [snd calls logged remote]; rewrite <- ?app_assoc; cbn [app];
  eexists; split; [reflexivity|].

Lemma nb_run_shape {N : netbox} name values (w : world N) :
  exists rest,
    calls (snd (ensure_choice_set_nb name values w))
    = (calls w ++ NbGet CHOICE_SETS (name_filter name) :: rest)%list
    /\ nb_tail name values rest.
Proof.
  unfold ensure_choice_set_nb, bind, get, nb_tail. fold (name_filter name).
  destruct (nb_get N CHOICE_SETS (name_filter name) (remote w)) as [[cs|]|e].
  - unfold lift at 1.
    destruct (merge_nb (PRec cs) values) as [[extra|]|e]; [| |].
    + unfold lift at 1.
      destruct (getattr (PRec cs) "id") as [id|e].
      * unfold update. cbn [remote logged].
        destruct (nb_update N CHOICE_SETS _ (remote w)) as [[l|e] s];
          cbn [obind]; unfold lift; log_tail; right; left; now exists id, extra.
      * log_tail. now left.
    + unfold ret. log_tail. now left.
    + log_tail. now left.
  - unfold create. cbn [remote logged].
    destruct (nb_create N CHOICE_SETS _ (remote w)) as [r s].
    log_tail. right; right. reflexivity.
  - log_tail. now left.
Qed.

Lemma http_run_shape {N : netbox} name values (w : world N) :
  exists rest,
    calls (snd (ensure_choice_set_http name values w))
    = (calls w ++ HttpGet CHOICE_SETS (raw_params name) :: rest)%list
    /\ http_tail name values rest.
Proof.
  unfold ensure_choice_set_http, http_tail. unfold bind at 1, session_get.
  fold (raw_params name).
  destruct (http_get N CHOICE_SETS (raw_params name) (remote w)) as [data|e];
    [|log_tail; now left].
  unfold bind at 1, lift at 1.
  destruct (method_get_default data "count" (PInt 0)) as [count|e];
    [|log_tail; now left].
  unfold bind at 1, lift at 1.
  destruct (py_gt0 count) as [[|]|e]; [| |log_tail; now left].
  - unfold bind at 1, lift at 1.
    destruct (getitem data "results") as [results|e]; [|log_tail; now left].
    unfold bind at 1, lift at 1.
    destruct (index0 results) as [cs|e]; [|log_tail; now left].
    unfold bind at 1, lift at 1.
    destruct (merge_http cs values) as [[extra|]|e];
      [|unfold ret; log_tail; now left|log_tail; now left].
    unfold bind at 1, lift at 1.
    destruct (getitem cs "id") as [id|e]; [|log_tail; now left].
    unfold session_patch. cbn [remote logged].
    destruct (http_patch N CHOICE_SETS id _ (remote w)) as [r s].
    log_tail. right; left. now exists id, extra.
  - unfold session_post. cbn [remote logged].
    destruct (http_post N CHOICE_SETS _ (remote w)) as [r s].
    log_tail. right; right. reflexivity.
Qed.

(** X19. Whatever the service holds and answers, a run of the merge makes
    one lookup and then at most one more call: either one write that
    carries an identity and an extra partition and nothing else (the fixed
    partition is never sent), or the creation of the set; it never writes
    twice and never deletes. This holds for the structured path and for
    the raw path. *)
Theorem choice_set_run_shape (N : netbox) (w : world N) (name : string)
  (values : list pyval) :
  (exists rest,
     calls (snd (ensure_choice_set_nb name values w))
     = (calls w ++ NbGet CHOICE_SETS (name_filter name) :: rest)%list
     /\ nb_tail name values rest)
  /\ (exists rest,
      calls (snd (ensure_choice_set_http name values w))
      = (calls w ++ HttpGet CHOICE_SETS (raw_params name) :: rest)%list
      /\ http_tail name values rest).
Proof. split; [apply nb_run_shape | apply http_run_shape]. Qed.

(** ** The other paths of ensure_cf_select *)

(** X20. The choice set comes first: when resolving it raises, or the set
    that comes back has no identity, the helper raises the same exception
    and the custom fields are not even looked up. With no set name given,
    or an empty one, the set is resolved under the name of the field. When
    the field does not exist it is created as a select field bound to the
    identity of the set, and no update is made. *)
Theorem ensure_cf_select_set_first (N : netbox) (name label : string)
  (values : list pyval) (choice_set_name : option string) (w w1 : world N) :
  resolved_set_name name None = name
  /\ resolved_set_name name (Some "") = name
  /\ (forall e,
      ensure_choice_set (resolved_set_name name choice_set_name) values w
      = (Raised e, w1) ->
      ensure_cf_select name label values choice_set_name w = (Raised e, w1))
  /\ (forall cs e,
      ensure_choice_set (resolved_set_name name choice_set_name) values w
      = (Ok cs, w1) ->
      choice_set_id cs = Raised e ->
      ensure_cf_select name label values choice_set_name w = (Raised e, w1))
  /\ (forall cs cs_id,
      ensure_choice_set (resolved_set_name name choice_set_name) values w
      = (Ok cs, w1) ->
      choice_set_id cs = Ok cs_id ->
      nb_get N CUSTOM_FIELDS (cf_filter name) (remote w1) = Ok None ->
      calls (snd (ensure_cf_select name label values choice_set_name w))
      = (calls w1
         ++ [NbGet CUSTOM_FIELDS (cf_filter name);
             NbCreate CUSTOM_FIELDS (PDict (cf_select_payload name label cs_id))])%list).
Proof.
  split; [reflexivity|]. split; [reflexivity|].
  split; [|split].
  - intros e H. unfold ensure_cf_select.
    fold (resolved_set_name name choice_set_name). unfold bind at 1. now rewrite H.
  - intros cs e H Hid. unfold ensure_cf_select.
    fold (resolved_set_name name choice_set_name). unfold bind at 1. rewrite H.
    unfold bind at 1, lift at 1. now rewrite Hid.
  - intros cs cs_id H Hid Hget. unfold ensure_cf_select.
    fold (resolved_set_name name choice_set_name). unfold bind at 1. rewrite H.
    unfold bind at 1, lift at 1. rewrite Hid.
    unfold bind at 1, get. fold (cf_filter name). rewrite Hget.
    unfold create. cbn [remote logged].
    destruct (nb_create N CUSTOM_FIELDS _ (remote w1)) as [r s].
    cbn [snd calls logged]. now rewrite <- app_assoc.
Qed.

Lemma ensure_cf_select_set_first_witness :
  calls (snd (ensure_cf_select "hpc_role" "HPC Role" [PStr "a"; PStr "b"] None
                (Mem.start true [(CHOICE_SETS, [set_a_b])])))
  = [NbGet CHOICE_SETS (name_filter "hpc_role");
     NbGet CUSTOM_FIELDS (cf_filter "hpc_role");
     NbCreate CUSTOM_FIELDS (PDict (cf_select_payload "hpc_role" "HPC Role" (PInt 7)))].
Proof.
  exact (proj2 (proj2 (proj2 (proj2
           (ensure_cf_select_set_first (Mem.service true) "hpc_role" "HPC Role"
              [PStr "a"; PStr "b"] None
              (Mem.start true [(CHOICE_SETS, [set_a_b])])
              (logged (Mem.start true [(CHOICE_SETS, [set_a_b])])
                 (NbGet CHOICE_SETS (name_filter "hpc_role"))
                 ([(CHOICE_SETS, [set_a_b])] : state (Mem.service true)))))))
           (PRec set_a_b) (PInt 7) eq_refl eq_refl eq_refl).
Defined.

(** ** Device types *)

(** X21. A device type is keyed by the slug of its model, not by the
    model: where the service finds under the slug what it has just
    created, a second call for a model of the same slug returns the type
    of the first call, whatever manufacturer, height and depth it is
    given, and creates nothing. A type that exists is returned without
    reading the manufacturer. *)
Theorem device_type_keyed_by_slug (N : netbox) (slugify : string -> string)
  (manufacturer manufacturer' : pyval) (model model' : string) (u u' : Z)
  (full_depth full_depth' : bool) (w : world N) :
  slugify model' = slugify model ->
  (forall m_id,
     getattr manufacturer "id" = Ok m_id ->
     found_after_create DEVICE_TYPES [("slug", PStr (slugify model))]
       (PDict [("manufacturer", m_id); ("model", PStr model);
               ("slug", PStr (slugify model)); ("u_height", PInt u);
               ("is_full_depth", PBool full_depth)]) w) ->
  forall o1 w1,
    ensure_device_type slugify manufacturer model u full_depth w = (Ok o1, w1) ->
    exists o2 w2,
      ensure_device_type slugify manufacturer' model' u' full_depth' w1 = (Ok o2, w2)
      /\ identity o2 = identity o1
      /\ calls w2 = (calls w1 ++ [NbGet DEVICE_TYPES [("slug", PStr (slugify model))]])%list.
Proof.
  intros Hslug Hlaw o1 w1.
  assert (Hfound : forall w' o,
    nb_get N DEVICE_TYPES [("slug", PStr (slugify model))] (remote w') = Ok (Some o) ->
    ensure_device_type slugify manufacturer' model' u' full_depth' w'
    = (Ok (PRec o),
       logged w' (NbGet DEVICE_TYPES [("slug", PStr (slugify model))]) (remote w'))).
  { intros w' o H. unfold ensure_device_type, bind, get. rewrite Hslug, H. reflexivity. }
  unfold ensure_device_type at 1, bind, get.
  destruct (nb_get N DEVICE_TYPES [("slug", PStr (slugify model))] (remote w))
    as [[o|]|e] eqn:Hget; [| |discriminate].
  - unfold ret. intros [= <- <-].
    eexists (PRec o), _. split; [apply Hfound; exact Hget|]. split; reflexivity.
  - unfold lift at 1.
    destruct (getattr manufacturer "id") as [m_id|e] eqn:Hm; [|discriminate].
    unfold create. cbn [remote logged].
    destruct (nb_create N DEVICE_TYPES _ (remote w)) as [[o|e] s] eqn:Hc;
      cbn [obind]; [|discriminate].
    intros [= <- <-].
    destruct (Hlaw m_id eq_refl o s Hc) as (o' & Hget' & Hid).
    eexists (PRec o'), _. split; [apply Hfound; exact Hget'|].
    split; [exact Hid | reflexivity].
Qed.

Lemma device_type_keyed_by_slug_witness :
  exists o2 w2,
    ensure_device_type (fun s => lower s) (PRec [("id", PInt 9)]) "gpu node" 4 false
      (snd (ensure_device_type (fun s => lower s) (PRec [("id", PInt 1)])
              "GPU Node" 2 true (Mem.start true [])))
    = (Ok o2, w2)
    /\ identity o2 = Some (PInt 1)
    /\ creates (calls w2) = 1%nat.
Proof.
  destruct (device_type_keyed_by_slug (Mem.service true) (fun s => lower s)
              (PRec [("id", PInt 1)]) (PRec [("id", PInt 9)]) "GPU Node" "gpu node"
              2 4 true false (Mem.start true []) eq_refl)
    with (o1 := PRec [("id", PInt 1); ("manufacturer", PInt 1);
                      ("model", PStr "GPU Node"); ("slug", PStr "gpu node");
                      ("u_height", PInt 2); ("is_full_depth", PBool true)])
         (w1 := snd (ensure_device_type (fun s => lower s) (PRec [("id", PInt 1)])
                       "GPU Node" 2 true (Mem.start true [])))
    as (o2 & w2 & H & Hid & Hcalls).
  - intros m_id [= <-] o s [= <- <-]. eexists. split; reflexivity.
  - reflexivity.
  - exists o2, w2. split; [exact H|]. split; [exact Hid|].
    rewrite Hcalls. reflexivity.
Defined.

(** ** The label of a hop *)

(** A segment record with the two terminations and a cable. *)
Definition segment (a b cable : pyval) : pyval :=
  PDict [("termination_a", a); ("termination_b", b); ("cable", cable)].

Lemma term_to_str_absent B x : truthy x = false -> _term_to_str B x = Ok "-".
Proof. intros H. unfold _term_to_str. now rewrite H. Qed.

(** The label of a segment: the label of its cable, else its display name,
    else the literal (lines 393-394). *)
Definition seg_label (cable : pyval) : outcome pyval :=
  let cable := py_or cable (PDict []) in
  obind (method_get cable "label") (fun lb =>
  or_else lb (obind (method_get cable "display") (fun dp =>
  or_else dp (Ok (PStr "cable"))))).

Lemma seg_line_segment B lft rgt cable label :
  truthy lft = true ->
  seg_label cable = Ok label ->
  seg_line B (segment lft rgt cable)
  = obind (_term_to_str B lft) (fun l =>
    obind (_term_to_str B rgt) (fun r =>
    Ok (hop_text B l label r))).
Proof.
  intros Hl Hlabel. unfold seg_line, segment.
  cbn [method_get obind dict_get lookup String.eqb Ascii.eqb Bool.eqb].
  unfold or_else at 1. rewrite Hl. cbn [obind].
  unfold seg_label in Hlabel.
  destruct (truthy rgt) eqn:Hr.
  - unfold or_else at 1. rewrite Hr. cbn [obind].
    destruct (method_get (py_or cable (PDict [])) "label") as [lb|e];
      cbn [obind] in *; [|discriminate].
    rewrite Hlabel. cbn [obind]. unfold py_or. rewrite Hl. cbv iota.
    now rewrite Hl.
  - unfold or_else at 1. rewrite Hr. cbn [obind or_else truthy].
    destruct (method_get (py_or cable (PDict [])) "label") as [lb|e];
      cbn [obind] in *; [|discriminate].
    rewrite Hlabel. cbn [obind]. unfold py_or. rewrite Hl. cbv iota.
    rewrite Hl.
    rewrite (term_to_str_absent B rgt Hr), (term_to_str_absent B PNone eq_refl).
    reflexivity.
Qed.

(** X22. A cable record without a label is labelled differently by the
    two hop formats. In a triple the label is then [None], printed as
    such; in a segment record it falls back to the display name of the
    cable and, without one, to the literal [cable]. *)
Theorem hop_label_of_unlabelled_cable B (lft rgt : pyval) (c : dict) :
  lookup "label" c = None ->
  hop_line B (PList [lft; PDict c; rgt])
  = obind (_term_to_str B lft) (fun l =>
    obind (_term_to_str B rgt) (fun r =>
    Ok ("   " ++ l ++ "  --[" ++ "None" ++ "]-->  " ++ r)))
  /\ (truthy lft = true ->
      lookup "display" c = None ->
      seg_line B (segment lft rgt (PDict c))
      = obind (_term_to_str B lft) (fun l =>
        obind (_term_to_str B rgt) (fun r =>
        Ok ("   " ++ l ++ "  --[" ++ "cable" ++ "]-->  " ++ r))))
  /\ (truthy lft = true ->
      forall d, d <> "" -> lookup "display" c = Some (PStr d) ->
      seg_line B (segment lft rgt (PDict c))
      = obind (_term_to_str B lft) (fun l =>
        obind (_term_to_str B rgt) (fun r =>
        Ok ("   " ++ l ++ "  --[" ++ d ++ "]-->  " ++ r)))).
Proof.
  intros Hlabel.
  assert (Hor : forall k, method_get (py_or (PDict c) (PDict [])) k = Ok (dict_get c k)).
  { intros k. destruct c; reflexivity. }
  assert (Hget : dict_get c "label" = PNone) by (unfold dict_get; now rewrite Hlabel).
  split; [|split].
  - unfold hop_line. cbn [py_len List.length obind Nat.eqb py_iter is_dict].
    rewrite Hor, Hget. reflexivity.
  - intros Hl Hdisplay.
    apply (seg_line_segment B lft rgt (PDict c) (PStr "cable") Hl).
    unfold seg_label. rewrite !Hor, Hget. unfold dict_get. rewrite Hdisplay.
    reflexivity.
  - intros Hl d Hne Hdisplay.
    apply (seg_line_segment B lft rgt (PDict c) (PStr d) Hl).
    unfold seg_label. rewrite !Hor, Hget. unfold dict_get. rewrite Hdisplay.
    cbn [obind or_else truthy]. destruct d; [now elim Hne | reflexivity].
Qed.

Lemma hop_label_of_unlabelled_cable_witness :
  hop_line plain_builtins (PList [PStr "a"; PDict []; PStr "b"])
  = Ok "   a  --[None]-->  b"
  /\ seg_line plain_builtins (segment (PStr "a") (PStr "b") (PDict []))
     = Ok "   a  --[cable]-->  b".
Proof.
  split.
  - exact (proj1 (hop_label_of_unlabelled_cable plain_builtins
                    (PStr "a") (PStr "b") [] eq_refl)).
  - exact (proj1 (proj2 (hop_label_of_unlabelled_cable plain_builtins
                           (PStr "a") (PStr "b") [] eq_refl)) eq_refl eq_refl).
Defined.
